(** * boost-node: the graph-store facade, embedded and verified

    A shallow embedding of the Python sources

      - [neo4j_connection.py]  (property converter, scoped session,
        [Neo4jConnection] operations),
      - [routers/neo4j_router.py]  (the [/neo4j/...] endpoints),
      - [main.py]  (the [/api/...] endpoints),

    followed by the properties of the query/response mapping layer.

    Python dictionaries used as plain maps (property maps) are [gmap]s;
    the [nodes] dictionary of [get_graph], whose insertion order becomes
    the order of the returned list, is an insertion-ordered association
    list.  Exceptions are an explicit [result] type; the store and the
    session bookkeeping are threaded through a small state-and-error
    monad. *)

From Stdlib Require Import ZArith String Ascii List DecimalString.
From stdpp Require Import base option gmap strings list fin_maps.

Local Open Scope Z_scope.
Local Open Scope string_scope.
Local Open Scope list_scope.

(** ** Store-native values *)

(** [neo4j.time.DateTime]: calendar fields, nanosecond of second and an
    optional UTC offset in seconds. *)
Record DateTime := mkDateTime {
  dt_year : Z;
  dt_month : Z;
  dt_day : Z;
  dt_hour : Z;
  dt_minute : Z;
  dt_second : Z;
  dt_nanosecond : Z;
  dt_utc_offset : option Z
}.

(** The values a property (or a query parameter) can hold.  A float is
    its binary64 bit pattern.  [VDate], [VTime] and [VDuration] are the
    other temporal classes of [neo4j.time]; none of them is an instance of
    [DateTime]. *)
#[warnings="-register-all"]
Inductive value : Type :=
| VBool (b : bool)
| VInt (z : Z)
| VFloat (bits : Z)
| VStr (s : string)
| VBytes (bs : list Z)
| VDateTime (d : DateTime)
| VDate (ordinal : Z)
| VTime (nanos_of_day : Z)
| VDuration (months days seconds nanoseconds : Z)
| VList (items : list value).

(** [isinstance(value, DateTime)] *)
Definition is_DateTime (v : value) : bool :=
  match v with
  | VDateTime _ => true
  | _ => false
  end.

(** ** neo4j_connection.py: the property converter *)

Section Converter.

(** [value.to_native().isoformat()], the driver's and the standard
    library's rendering of a [DateTime] as an ISO-8601 string. *)
Variable isoformat : DateTime -> string.

(** [[
    def convert_neo4j_to_python(value):
        if isinstance(value, DateTime):
            return value.to_native().isoformat()
        return value
    ]] *)
Definition convert_neo4j_to_python (v : value) : value :=
  match v with
  | VDateTime d => VStr (isoformat d)
  | _ => v
  end.

(** [[
    def convert_properties(props):
        return {k: convert_neo4j_to_python(v) for k, v in props.items()}
    ]] *)
Definition convert_properties (props : gmap string value) : gmap string value :=
  convert_neo4j_to_python <$> props.

End Converter.

(** ** Graph entities and result records *)

(** [neo4j.graph.Node]: [node.id], [node.labels], and the property map
    that [dict(node)] yields. *)
Record Node := mkNode {
  node_id : Z;
  node_labels : list string;
  node_properties : gmap string value
}.

(** [neo4j.graph.Relationship]: [rel.id], [rel.type], [rel.start_node.id],
    [rel.end_node.id] and the property map that [dict(rel)] yields. *)
Record Relationship := mkRelationship {
  rel_id : Z;
  rel_type : string;
  rel_start_node_id : Z;
  rel_end_node_id : Z;
  rel_properties : gmap string value
}.

(** A field of a result record, for the queries this program issues: the
    null of an unmatched [OPTIONAL MATCH], a node, a relationship, or the
    string of [RETURN 'Connected!' AS message]. *)
Inductive rvalue : Type :=
| RNull
| RNode (n : Node)
| RRel (r : Relationship)
| RStr (s : string).

(** [neo4j.Record]: the returned fields under their keys, in [RETURN]
    order. *)
Definition Record_ : Type := list (string * rvalue).

(** A bound query parameter. *)
Inductive param : Type :=
| PNone
| PInt (z : Z)
| PStr (s : string)
| PProps (props : gmap string value).

Definition Params : Type := list (string * param).

(** ** Exceptions *)

Inductive exn : Type :=
| HTTPException (status_code : Z) (detail : string)
| ServiceUnavailable (msg : string)
| Neo4jError (msg : string)
| KeyError (key : string)
| IndexError
| AttributeError (attr : string)
| TypeError (msg : string).

Inductive result (A : Type) : Type :=
| Ok (a : A)
| Raise (e : exn).
Arguments Ok {A} a.
Arguments Raise {A} e.

Definition rbind {A B} (r : result A) (k : A -> result B) : result B :=
  match r with
  | Ok a => k a
  | Raise e => Raise e
  end.

Declare Scope result_scope.
Delimit Scope result_scope with result.
Notation "x <- r ;; k" := (rbind r (fun x => k))
  (at level 100, r at next level, right associativity) : result_scope.

(** ** Python object protocol on record fields *)

(** Truth value of a record field under [if x:].  [None] is false and a
    string is true when non-empty.  [neo4j.graph.Entity], the base class of
    [Node] and [Relationship], is a [Mapping] over the entity's properties:
    it defines [__len__] and no [__bool__], so Python's truth test on an
    entity is [len(entity) != 0], the entity has at least one property. *)
Definition truthy (v : rvalue) : bool :=
  match v with
  | RNull => false
  | RNode n => negb (Nat.eqb (size (node_properties n)) 0)
  | RRel r => negb (Nat.eqb (size (rel_properties r)) 0)
  | RStr s => negb (String.eqb s EmptyString)
  end.

(** [record[key]] *)
Fixpoint record_getitem (rec : Record_) (key : string) : result rvalue :=
  match rec with
  | [] => Raise (KeyError key)
  | (k, v) :: rest => if String.eqb k key then Ok v else record_getitem rest key
  end.

(** [x.id] *)
Definition attr_id (v : rvalue) : result Z :=
  match v with
  | RNode n => Ok (node_id n)
  | RRel r => Ok (rel_id r)
  | _ => Raise (AttributeError "id")
  end.

(** [list(x.labels)] *)
Definition attr_labels (v : rvalue) : result (list string) :=
  match v with
  | RNode n => Ok (node_labels n)
  | _ => Raise (AttributeError "labels")
  end.

(** [x.type] *)
Definition attr_type (v : rvalue) : result string :=
  match v with
  | RRel r => Ok (rel_type r)
  | _ => Raise (AttributeError "type")
  end.

(** [x.start_node.id] and [x.end_node.id] *)
Definition attr_start_node_id (v : rvalue) : result Z :=
  match v with
  | RRel r => Ok (rel_start_node_id r)
  | _ => Raise (AttributeError "start_node")
  end.

Definition attr_end_node_id (v : rvalue) : result Z :=
  match v with
  | RRel r => Ok (rel_end_node_id r)
  | _ => Raise (AttributeError "end_node")
  end.

(** [dict(x)] *)
Definition dict_of (v : rvalue) : result (gmap string value) :=
  match v with
  | RNode n => Ok (node_properties n)
  | RRel r => Ok (rel_properties r)
  | RNull => Raise (TypeError "'NoneType' object is not iterable")
  | RStr _ => Raise (TypeError "dictionary update sequence element")
  end.

(** [result.single()]: [None] when the result has no record, else the
    (first) record. *)
Definition single (records : list Record_) : option Record_ :=
  match records with
  | [] => None
  | rec :: _ => Some rec
  end.

(** [record[key]] on the outcome of [result.single()]. *)
Definition record_getitem_opt (record : option Record_) (key : string)
  : result rvalue :=
  match record with
  | Some rec => record_getitem rec key
  | None => Raise (TypeError "'NoneType' object is not subscriptable")
  end.

(** [str(n)] for an integer. *)
Definition str_int (z : Z) : string := NilZero.string_of_int (Z.to_int z).

(** ** The driver: sessions, the store, and the monad of handlers *)

Definition Session : Type := nat.

(** What the program does to the driver, in order. *)
Inductive event : Type :=
| EOpen (s : Session)                                   (* driver.session() *)
| ERun (s : Session) (query : string) (params : Params) (* session.run(...) *)
| EClose (s : Session).                                 (* session.close() *)

Definition World : Type := list event.

(** The statements sent to the store so far. *)
Fixpoint queries (w : World) : list (string * Params) :=
  match w with
  | [] => []
  | ERun _ q p :: w' => (q, p) :: queries w'
  | _ :: w' => queries w'
  end.

(** The number of sessions handed out so far names the next one. *)
Fixpoint sessions_opened (w : World) : nat :=
  match w with
  | [] => O
  | EOpen _ :: w' => S (sessions_opened w')
  | _ :: w' => sessions_opened w'
  end.

(** Whether session [s] is open after the events of [w]: the last
    [EOpen s] or [EClose s] decides. *)
Definition session_step (s : Session) (open : bool) (e : event) : bool :=
  match e with
  | EOpen s' => if Nat.eqb s' s then true else open
  | EClose s' => if Nat.eqb s' s then false else open
  | ERun _ _ _ => open
  end.

Definition session_open (s : Session) (w : World) : bool :=
  fold_left (session_step s) w false.

(** A computation that may raise and that acts on the driver. *)
Definition M (A : Type) : Type := World -> result A * World.

Definition ret {A} (a : A) : M A := fun w => (Ok a, w).
Definition raise {A} (e : exn) : M A := fun w => (Raise e, w).
Definition lift {A} (r : result A) : M A := fun w => (r, w).

Definition bind {A B} (m : M A) (k : A -> M B) : M B :=
  fun w =>
    match m w with
    | (Ok a, w') => k a w'
    | (Raise e, w') => (Raise e, w')
    end.

(** [try: m  except Exception as e: handler(e)] *)
Definition try_except {A} (m : M A) (handler : exn -> M A) : M A :=
  fun w =>
    match m w with
    | (Ok a, w') => (Ok a, w')
    | (Raise e, w') => handler e w'
    end.

(** [try: m  finally: cleanup], for a cleanup that does not raise: the
    cleanup runs whether [m] returns or raises, and the outcome of [m]
    stands. *)
Definition try_finally {A} (m : M A) (cleanup : World -> World) : M A :=
  fun w =>
    match m w with
    | (r, w') => (r, cleanup w')
    end.

Declare Scope world_scope.
Delimit Scope world_scope with world.
Notation "x <- m ;; k" := (bind m (fun x => k))
  (at level 100, m at next level, right associativity) : world_scope.

(** The status line of the response FastAPI sends for a handler's outcome:
    200 for a returned body, the status of a raised [HTTPException], and
    500 for any other exception that escapes the handler. *)
Definition http_status {A} (r : result A) : Z :=
  match r with
  | Ok _ => 200
  | Raise (HTTPException status _) => status
  | Raise _ => 500
  end.

Section Driver.

(** The store's answer to a statement, given the statements it has
    already executed: the records of the result, or the exception the
    driver raises ([ServiceUnavailable] when the store cannot be reached,
    a [Neo4jError] when the store rejects the statement). *)
Variable store : list (string * Params) -> string -> Params -> result (list Record_).

(** [driver.session()]: sessions are created lazily, without talking to
    the store. *)
Definition driver_session : M Session :=
  fun w => (Ok (sessions_opened w), w ++ [EOpen (sessions_opened w)]).

(** [session.run(query, **params)], with the records of the result
    already fetched. *)
Definition session_run (s : Session) (query : string) (params : Params)
  : M (list Record_) :=
  fun w => (store (queries w) query params, w ++ [ERun s query params]).

(** [session.close()] *)
Definition session_close (s : Session) (w : World) : World := w ++ [EClose s].

(** [with driver.session() as session: body], as main.py writes it: the
    driver's session is its own context manager, and its [__exit__] closes
    it however the block is left. *)
Definition with_driver_session {A} (body : Session -> M A) : M A :=
  (session <- driver_session ;;
   try_finally (body session) (session_close session))%world.

End Driver.

(** ** Query text *)

Definition nl : string := String (ascii_of_nat 10) EmptyString.

(** The sixteen spaces that indent the query literals in the source. *)
Definition indent : string := "                ".

(** A triple-quoted literal opened at the end of one line and closed at the
    start of another: a newline, each line with its indentation and
    newline, and the indentation before the closing quotes. *)
Definition triple_quoted (lines : list string) : string :=
  nl +:+ fold_right (fun l acc => indent +:+ l +:+ nl +:+ acc) indent lines.

(** ** The JSON shapes the mapper produces *)

(** [{"id": ..., "labels": [...], "properties": {...}}] *)
Record NodeJson := mkNodeJson {
  nj_id : Z;
  nj_labels : list string;
  nj_properties : gmap string value
}.

(** [{"id", "type", "source", "target", "properties"}] of a graph slice *)
Record RelJson := mkRelJson {
  rj_id : Z;
  rj_type : string;
  rj_source : Z;
  rj_target : Z;
  rj_properties : gmap string value
}.

(** [{"id", "type", "start_node", "end_node", "properties"}] of
    [create_relationship] *)
Record RelCreated := mkRelCreated {
  rc_id : Z;
  rc_type : string;
  rc_start_node : Z;
  rc_end_node : Z;
  rc_properties : gmap string value
}.

(** [{"nodes": [...], "relationships": [...]}] *)
Record GraphJson := mkGraphJson {
  g_nodes : list NodeJson;
  g_relationships : list RelJson
}.

(** ** A Python [dict] keyed by node id, in insertion order *)

Section PyDict.
Context {V : Type}.

(** [k in d] *)
Fixpoint dict_contains (k : Z) (d : list (Z * V)) : bool :=
  match d with
  | [] => false
  | (k', _) :: d' => if Z.eqb k' k then true else dict_contains k d'
  end.

(** [d[k] = v]: an existing key keeps its place, a new key goes last. *)
Fixpoint dict_setitem (k : Z) (v : V) (d : list (Z * V)) : list (Z * V) :=
  match d with
  | [] => [(k, v)]
  | (k', v') :: d' =>
      if Z.eqb k' k then (k', v) :: d' else (k', v') :: dict_setitem k v d'
  end.

(** [list(d.values())] *)
Definition dict_values (d : list (Z * V)) : list V := map snd d.

End PyDict.

(** ** neo4j_connection.py: class Neo4jConnection *)

Module Neo4jConnection.
Section Neo4jConnection.

Variable isoformat : DateTime -> string.
Variable store : list (string * Params) -> string -> Params -> result (list Record_).

(** [[
    @contextmanager
    def session(self):
        session = self.driver.session()
        try:
            yield session
        finally:
            session.close()
    ]]
    [session body] is [with self.session() as session: body]: the block
    runs at the [yield], and an exception it raises is thrown into the
    generator there, inside the [try]. *)
Definition session {A} (body : Session -> M A) : M A :=
  (session <- driver_session ;;
   try_finally (body session) (session_close session))%world.

(** [if not record]: [record] is [None], or a [Record] (a tuple) without
    fields. *)
Definition not_record (record : option Record_) : bool :=
  match record with
  | None => true
  | Some [] => true
  | Some (_ :: _) => false
  end.

(** The dictionary built from a node in [get_node_by_id] and [get_graph]:
    [[
    {"id": node.id,
     "labels": list(node.labels),
     "properties": convert_properties(dict(node))}
    ]] *)
Definition node_dict (node : rvalue) : result NodeJson :=
  (id <- attr_id node ;;
   labels <- attr_labels node ;;
   props <- dict_of node ;;
   Ok {| nj_id := id;
         nj_labels := labels;
         nj_properties := convert_properties isoformat props |})%result.

Definition get_node_by_id_query : string :=
  "MATCH (n) WHERE id(n) = $id RETURN n".

(** [[
    def get_node_by_id(self, node_id):
        with self.session() as session:
            result = session.run("MATCH (n) WHERE id(n) = $id RETURN n", id=node_id)
            record = result.single()
            if not record:
                return None
            node = record["n"]
            return {...}
    ]] *)
Definition get_node_by_id (node_id : Z) : M (option NodeJson) :=
  session (fun session =>
    (result <- session_run store session get_node_by_id_query [("id", PInt node_id)] ;;
     lift (let record := single result in
           if not_record record then Ok None
           else
             node <- record_getitem_opt record "n" ;;
             d <- node_dict node ;;
             Ok (Some d))%result)%world).

(** The query text of [create_relationship]: the literal with
    [.format(rel_type)] applied to its one replacement field, between the
    backticks. *)
Definition create_relationship_query (rel_type : string) : string :=
  triple_quoted
    [ "MATCH (a), (b) ";
      "WHERE id(a) = $from_id AND id(b) = $to_id";
      "CREATE (a)-[r:`" +:+ rel_type +:+ "`]->(b)";
      "SET r = $props";
      "RETURN r" ].

(** With [QUERY] for the triple-quoted literal:
    [[
    def create_relationship(self, from_id, to_id, rel_type, properties=None):
        if properties is None:
            properties = {}
        with self.session() as session:
            result = session.run(QUERY.format(rel_type),
                                 from_id=from_id, to_id=to_id, props=properties)
            record = result.single()
            if not record:
                return None
            rel = record["r"]
            return {"id": rel.id, "type": rel.type,
                    "start_node": rel.start_node.id,
                    "end_node": rel.end_node.id,
                    "properties": dict(rel)}
    ]] *)
Definition create_relationship (from_id to_id : Z) (rel_type : string)
    (properties : option (gmap string value)) : M (option RelCreated) :=
  let properties := default ∅ properties in
  session (fun session =>
    (result <- session_run store session (create_relationship_query rel_type)
                 [("from_id", PInt from_id); ("to_id", PInt to_id);
                  ("props", PProps properties)] ;;
     lift (let record := single result in
           if not_record record then Ok None
           else
             rel <- record_getitem_opt record "r" ;;
             id <- attr_id rel ;;
             type <- attr_type rel ;;
             start_node <- attr_start_node_id rel ;;
             end_node <- attr_end_node_id rel ;;
             props <- dict_of rel ;;
             Ok (Some {| rc_id := id; rc_type := type;
                         rc_start_node := start_node;
                         rc_end_node := end_node;
                         rc_properties := props |}))%result)%world).

Definition get_graph_query : string :=
  triple_quoted
    [ "MATCH (n)";
      "OPTIONAL MATCH (n)-[r]->(m)";
      "RETURN n, r, m";
      "LIMIT $limit" ].

(** The two node blocks of the loop of [get_graph], for the start node
    ([key] is ["n"]) and for the end node ([key] is ["m"]):
    [[
    if record[key] and record[key].id not in nodes:
        node = record[key]
        nodes[node.id] = {"id": node.id, "labels": ..., "properties": ...}
    ]] *)
Definition visit_node (record : Record_) (key : string)
    (nodes : list (Z * NodeJson)) : result (list (Z * NodeJson)) :=
  (x <- record_getitem record key ;;
   if truthy x then
     id <- attr_id x ;;
     if dict_contains id nodes then Ok nodes
     else
       node <- record_getitem record key ;;
       d <- node_dict node ;;
       k <- attr_id node ;;
       Ok (dict_setitem k d nodes)
   else Ok nodes)%result.

(** [[
    if record["r"]:
        rel = record["r"]
        relationships.append({"id": rel.id, "type": rel.type,
                              "source": rel.start_node.id,
                              "target": rel.end_node.id,
                              "properties": convert_properties(dict(rel))})
    ]] *)
Definition visit_relationship (record : Record_)
    (relationships : list RelJson) : result (list RelJson) :=
  (x <- record_getitem record "r" ;;
   if truthy x then
     rel <- record_getitem record "r" ;;
     id <- attr_id rel ;;
     type <- attr_type rel ;;
     source <- attr_start_node_id rel ;;
     target <- attr_end_node_id rel ;;
     props <- dict_of rel ;;
     Ok (relationships ++
           [ {| rj_id := id; rj_type := type; rj_source := source;
                rj_target := target;
                rj_properties := convert_properties isoformat props |} ])
   else Ok relationships)%result.

(** One iteration of [for record in result:]. *)
Definition visit_record (record : Record_)
    (acc : list (Z * NodeJson) * list RelJson)
  : result (list (Z * NodeJson) * list RelJson) :=
  (nodes <- visit_node record "n" (fst acc) ;;
   nodes <- visit_node record "m" nodes ;;
   relationships <- visit_relationship record (snd acc) ;;
   Ok (nodes, relationships))%result.

(** The loop, from the current [nodes] and [relationships]. *)
Fixpoint visit_records (records : list Record_)
    (acc : list (Z * NodeJson) * list RelJson)
  : result (list (Z * NodeJson) * list RelJson) :=
  match records with
  | [] => Ok acc
  | record :: rest =>
      (acc' <- visit_record record acc ;; visit_records rest acc')%result
  end.

(** The mapper of [get_graph]: [nodes = {}], [relationships = []], the
    loop, and the returned dictionary. *)
Definition graph_of_records (records : list Record_) : result GraphJson :=
  (acc <- visit_records records ([], []) ;;
   Ok {| g_nodes := dict_values (fst acc);
         g_relationships := snd acc |})%result.

(** With [QUERY] for the triple-quoted literal of [get_graph_query]:
    [[
    def get_graph(self, limit=100):
        with self.session() as session:
            result = session.run(QUERY, limit=limit)
            nodes = {}
            relationships = []
            for record in result: ...
            return {"nodes": list(nodes.values()),
                    "relationships": relationships}
    ]] *)
Definition get_graph (limit : Z) : M GraphJson :=
  session (fun session =>
    (result <- session_run store session get_graph_query [("limit", PInt limit)] ;;
     lift (graph_of_records result))%world).

(** [record.data()]: the record as a plain dictionary.  A string field is
    exported as itself; entity fields are kept as they are here, their
    exported shape being the driver's and read by no caller. *)
Definition record_data (record : Record_) : Record_ := record.

(** [[
    def execute_query(self, query, params=None):
        if params is None:
            params = {}
        with self.session() as session:
            result = session.run(query, params)
            return [record.data() for record in result]
    ]] *)
Definition execute_query (query : string) (params : option Params)
  : M (list Record_) :=
  let params := default [] params in
  session (fun session =>
    (result <- session_run store session query params ;;
     lift (Ok (map record_data result)))%world).

End Neo4jConnection.
End Neo4jConnection.

(** ** routers/neo4j_router.py: the [/neo4j] endpoints *)

Module Neo4jRouter.

(** [class NodeCreate(BaseModel)] *)
Record NodeCreate := mkNodeCreate {
  label : string;
  properties : gmap string value
}.

(** [class RelationshipCreate(BaseModel)] *)
Record RelationshipCreate := mkRelationshipCreate {
  from_id : Z;
  to_id : Z;
  type : string;
  rel_props : option (gmap string value)
}.

(** The dictionary [create_node] returns under ["node"]. *)
Record CreatedNode := mkCreatedNode {
  cn_id : string;
  cn_labels : list string;
  cn_properties : gmap string value
}.

(** [{"status": ..., "message": ...}] *)
Record ConnectionStatus := mkConnectionStatus {
  status : string;
  message : rvalue
}.

Section Neo4jRouter.

Variable isoformat : DateTime -> string.
(** [str(e)] *)
Variable exn_str : exn -> string.
Variable store : list (string * Params) -> string -> Params -> result (list Record_).

Definition create_node_query (label : string) : string :=
  "CREATE (n:" +:+ label +:+ " $props) RETURN n".

(** [[
    async def create_node(node_data: NodeCreate):
        try:
            with neo4j_connection.session() as session:
                result = session.run(
                    f"CREATE (n:{node_data.label} $props) RETURN n",
                    props=node_data.properties)
                record = result.single()
                if not record:
                    raise HTTPException(status_code=500, detail="Failed to create node")
                neo4j_node = record["n"]
                node_dict = {"id": str(neo4j_node.id),
                             "labels": list(neo4j_node.labels),
                             "properties": dict(neo4j_node)}
                return {"node": node_dict}
        except Exception as e:
            raise HTTPException(status_code=500, detail=str(e))
    ]] *)
Definition create_node (node_data : NodeCreate) : M CreatedNode :=
  try_except
    (Neo4jConnection.session (fun session =>
       (result <- session_run store session (create_node_query (label node_data))
                    [("props", PProps (properties node_data))] ;;
        lift (let record := single result in
              if Neo4jConnection.not_record record then
                Raise (HTTPException 500 "Failed to create node")
              else
                neo4j_node <- record_getitem_opt record "n" ;;
                id <- attr_id neo4j_node ;;
                labels <- attr_labels neo4j_node ;;
                props <- dict_of neo4j_node ;;
                Ok {| cn_id := str_int id; cn_labels := labels;
                      cn_properties := props |})%result)%world))
    (fun e => raise (HTTPException 500 (exn_str e))).

(** [[
    async def get_node(node_id: int):
        try:
            result = neo4j_connection.get_node_by_id(node_id)
            if not result:
                raise HTTPException(status_code=404,
                                    detail=f"Node with ID {node_id} not found")
            return {"node": result}
        except Exception as e:
            raise HTTPException(status_code=500, detail=f"Neo4j error: {str(e)}")
    ]]
    [HTTPException] derives from [Exception], so the handler also receives
    the exception raised inside the [try]. *)
Definition get_node (node_id : Z) : M NodeJson :=
  try_except
    (result <- Neo4jConnection.get_node_by_id isoformat store node_id ;;
     match result with
     | None =>
         raise (HTTPException 404
                  ("Node with ID " +:+ str_int node_id +:+ " not found"))
     | Some node => ret node
     end)%world
    (fun e => raise (HTTPException 500 ("Neo4j error: " +:+ exn_str e))).

(** [[
    async def create_relationship(relationship: RelationshipCreate):
        try:
            result = neo4j_connection.create_relationship(
                relationship.from_id, relationship.to_id,
                relationship.type, relationship.properties)
            if not result:
                raise HTTPException(status_code=500,
                                    detail="Failed to create relationship")
            return {"relationship": result}
        except Exception as e:
            raise HTTPException(status_code=500, detail=f"Neo4j error: {str(e)}")
    ]] *)
Definition create_relationship (relationship : RelationshipCreate)
  : M RelCreated :=
  try_except
    (result <- Neo4jConnection.create_relationship store
                 (from_id relationship) (to_id relationship)
                 (type relationship) (rel_props relationship) ;;
     match result with
     | None => raise (HTTPException 500 "Failed to create relationship")
     | Some rel => ret rel
     end)%world
    (fun e => raise (HTTPException 500 ("Neo4j error: " +:+ exn_str e))).

(** [[
    async def get_graph(limit: int = 100):
        try:
            result = neo4j_connection.get_graph(limit)
            return result
        except Exception as e:
            raise HTTPException(status_code=500, detail=f"Neo4j error: {str(e)}")
    ]] *)
Definition get_graph (limit : Z) : M GraphJson :=
  try_except
    (Neo4jConnection.get_graph isoformat store limit)
    (fun e => raise (HTTPException 500 ("Neo4j error: " +:+ exn_str e))).

Definition test_connection_query : string := "RETURN 'Connected!' AS message".

(** [result[0]] *)
Definition first_row (rows : list Record_) : result Record_ :=
  match rows with
  | [] => Raise IndexError
  | row :: _ => Ok row
  end.

(** [[
    async def test_connection():
        try:
            result = neo4j_connection.execute_query("RETURN 'Connected!' AS message")
            return {"status": "success", "message": result[0]["message"]}
        except Exception as e:
            raise HTTPException(status_code=500,
                                detail=f"Neo4j connection failed: {str(e)}")
    ]] *)
Definition test_connection : M ConnectionStatus :=
  try_except
    (result <- Neo4jConnection.execute_query store test_connection_query None ;;
     lift (row <- first_row result ;;
           msg <- record_getitem row "message" ;;
           Ok {| status := "success"; message := msg |})%result)%world
    (fun e =>
       raise (HTTPException 500 ("Neo4j connection failed: " +:+ exn_str e))).

(** The dictionary [get_users] appends for a record:
    [{"id": user.id, "properties": convert_properties(dict(user))}]. *)
Record UserJson := mkUserJson {
  uj_id : Z;
  uj_properties : gmap string value
}.

Definition get_users_query : string :=
  triple_quoted [ "MATCH (u:User)"; "RETURN u" ].

(** The loop of [get_users], from the current [users]:
    [[
    for record in result:
        user = record["u"]
        users.append({"id": user.id,
                      "properties": convert_properties(dict(user))})
    ]] *)
Fixpoint users_of_records (records : list Record_) (users : list UserJson)
  : result (list UserJson) :=
  match records with
  | [] => Ok users
  | record :: rest =>
      (user <- record_getitem record "u" ;;
       id <- attr_id user ;;
       props <- dict_of user ;;
       users_of_records rest
         (users ++ [ {| uj_id := id;
                        uj_properties := convert_properties isoformat props |} ]))%result
  end.

(** With [QUERY] for the triple-quoted literal of [get_users_query]:
    [[
    async def get_users():
        try:
            with neo4j_connection.session() as session:
                result = session.run(QUERY)
                users = []
                for record in result: ...
                return users
        except Exception as e:
            raise HTTPException(status_code=500, detail=f"Neo4j error: {str(e)}")
    ]] *)
Definition get_users : M (list UserJson) :=
  try_except
    (Neo4jConnection.session (fun session =>
       (result <- session_run store session get_users_query [] ;;
        lift (users_of_records result []))%world))
    (fun e => raise (HTTPException 500 ("Neo4j error: " +:+ exn_str e))).

End Neo4jRouter.
End Neo4jRouter.

(** ** main.py: the [/api] endpoints *)

Module Main.

(** [class RelationshipCreate(BaseModel)] *)
Record RelationshipCreate := mkRelationshipCreate {
  from_id : string;
  to_id : string;
  type : string;
  rel_props : option (gmap string value)
}.

(** [class NodeCreate(BaseModel)] *)
Record NodeCreate := mkNodeCreate {
  label : string;
  properties : gmap string value
}.

(** The dictionary [create_node] returns under ["node"]. *)
Record CreatedNode := mkCreatedNode {
  cn_id : Z;
  cn_properties : gmap string value
}.

Section Main.

(** [str(e)] *)
Variable exn_str : exn -> string.
Variable store : list (string * Params) -> string -> Params -> result (list Record_).

(** An optional dictionary as a bound parameter. *)
Definition param_of_props (props : option (gmap string value)) : param :=
  match props with
  | Some p => PProps p
  | None => PNone
  end.

Definition create_relationship_query (rel_type : string) : string :=
  triple_quoted
    [ "MATCH (from) WHERE from.uiNodeId = $from_id";
      "MATCH (to) WHERE to.uiNodeId = $to_id";
      "CREATE (from)-[r:" +:+ rel_type +:+ "]->(to)";
      "SET r += $properties";
      "RETURN r" ].

(** With [QUERY] for the f-string literal of [create_relationship_query]:
    [[
    async def create_relationship(relationship: RelationshipCreate):
        try:
            with driver.session() as session:
                query = QUERY
                result = session.run(query,
                                     from_id=relationship.from_id,
                                     to_id=relationship.to_id,
                                     properties=relationship.properties)
                return {"message": "Relationship created successfully"}
        except Exception as e:
            raise HTTPException(status_code=500, detail=str(e))
    ]] *)
Definition create_relationship (relationship : RelationshipCreate) : M string :=
  try_except
    (with_driver_session (fun session =>
       (let query := create_relationship_query (type relationship) in
        result <- session_run store session query
                    [("from_id", PStr (from_id relationship));
                     ("to_id", PStr (to_id relationship));
                     ("properties", param_of_props (rel_props relationship))] ;;
        lift (Ok "Relationship created successfully"))%world))
    (fun e => raise (HTTPException 500 (exn_str e))).

Definition create_node_query (label : string) : string :=
  triple_quoted
    [ "CREATE (n:" +:+ label +:+ " $properties)";
      "RETURN n" ].

(** With [QUERY] for the f-string literal of [create_node_query]:
    [[
    async def create_node(node: NodeCreate):
        try:
            with driver.session() as session:
                result = session.run(QUERY, properties=node.properties)
                created_node = result.single()['n']
                return {"node": {"id": created_node.id,
                                 "properties": dict(created_node)}}
        except Exception as e:
            raise HTTPException(status_code=500, detail=str(e))
    ]] *)
Definition create_node (node : NodeCreate) : M CreatedNode :=
  try_except
    (with_driver_session (fun session =>
       (result <- session_run store session (create_node_query (label node))
                    [("properties", PProps (properties node))] ;;
        lift (created_node <- record_getitem_opt (single result) "n" ;;
              id <- attr_id created_node ;;
              props <- dict_of created_node ;;
              Ok {| cn_id := id; cn_properties := props |})%result)%world))
    (fun e => raise (HTTPException 500 (exn_str e))).

(** [{"message": "Neo4j API is running"}] *)
Definition root : M string := ret "Neo4j API is running".

(** The dictionary [get_user_node] returns, and the entries of the
    [goals] and [metrics] lists: [{"id": ..., "properties": ...}]. *)
Record ItemJson := mkItemJson {
  it_id : Z;
  it_properties : gmap string value
}.

Definition get_user_node_query : string :=
  "MATCH (u:User {value: $email}) RETURN u".

(** [[
    async def get_user_node(email: str):
        with driver.session() as session:
            result = session.run("MATCH (u:User {value: $email}) RETURN u",
                                 email=email)
            user = result.single()
            if not user:
                raise HTTPException(status_code=404, detail="User not found")
            node = user['u']
            return {"id": node.id, "properties": dict(node)}
    ]]
    No [try] surrounds the block: what it raises leaves the handler. *)
Definition get_user_node (email : string) : M ItemJson :=
  with_driver_session (fun session =>
    (result <- session_run store session get_user_node_query [("email", PStr email)] ;;
     lift (let user := single result in
           if Neo4jConnection.not_record user then
             Raise (HTTPException 404 "User not found")
           else
             node <- record_getitem_opt user "u" ;;
             id <- attr_id node ;;
             props <- dict_of node ;;
             Ok {| it_id := id; it_properties := props |})%result)%world).

(** An entry of the [relationships] list of [get_user_smart_goals] and
    [get_user_metrics]:
    [{"id": str(rel.id), "type": ..., "from_node": {...}, "to_node": {...}}]. *)
Record LinkJson := mkLinkJson {
  lk_id : string;
  lk_type : string;
  lk_from_node : ItemJson;
  lk_to_node : ItemJson
}.

(** [{"goals": [...], "relationships": [...]}], and the same with
    ["metrics"]. *)
Record UserItems := mkUserItems {
  ui_items : list ItemJson;
  ui_relationships : list LinkJson
}.

(** The twelve spaces that indent the query literals of the two handlers
    below. *)
Definition indent12 : string := "            ".

Definition triple_quoted12 (lines : list string) : string :=
  nl +:+ fold_right (fun l acc => indent12 +:+ l +:+ nl +:+ acc) indent12 lines.

(** [dict(rel.nodes[0])] and [dict(rel.nodes[1])]: the property maps of
    the two endpoint entities of a relationship, as the graph of the
    driver's result holds them. *)
Variable nodes_properties : Relationship -> gmap string value * gmap string value.

(** [[
    {"id": str(rel.id),
     "type": type,
     "from_node": {"id": rel.nodes[0].id, "properties": dict(rel.nodes[0])},
     "to_node": {"id": rel.nodes[1].id, "properties": dict(rel.nodes[1])}}
    ]]
    where [rel.nodes] is the pair of [rel.start_node] and [rel.end_node], and
    [type] is the literal the handler writes, not [rel.type]. *)
Definition link_dict (rel : rvalue) (type : string) : result LinkJson :=
  match rel with
  | RRel r =>
      Ok {| lk_id := str_int (rel_id r);
            lk_type := type;
            lk_from_node := {| it_id := rel_start_node_id r;
                               it_properties := fst (nodes_properties r) |};
            lk_to_node := {| it_id := rel_end_node_id r;
                             it_properties := snd (nodes_properties r) |} |}
  | RNode n => Raise (AttributeError "nodes")
  | _ => Raise (AttributeError "id")
  end.

(** The loop of [get_user_smart_goals] ([key] is ['g'], [has_type] is
    ["HAS_GOAL"]) and of [get_user_metrics] ([key] is ['m'], [has_type] is
    ["HAS_METRIC"]), from the current lists:
    [[
    for record in result:
        goal = record[key]
        has_rel = record['r1']
        belongs_rel = record['r2']
        goals.append({"id": goal.id, "properties": dict(goal)})
        relationships.extend([{... has_rel, has_type ...},
                              {... belongs_rel, "BELONGS_TO_USER" ...}])
    ]] *)
Fixpoint items_of_records (key has_type : string) (records : list Record_)
    (acc : list ItemJson * list LinkJson) : result (list ItemJson * list LinkJson) :=
  match records with
  | [] => Ok acc
  | record :: rest =>
      (goal <- record_getitem record key ;;
       has_rel <- record_getitem record "r1" ;;
       belongs_rel <- record_getitem record "r2" ;;
       id <- attr_id goal ;;
       props <- dict_of goal ;;
       has_link <- link_dict has_rel has_type ;;
       belongs_link <- link_dict belongs_rel "BELONGS_TO_USER" ;;
       items_of_records key has_type rest
         (fst acc ++ [ {| it_id := id; it_properties := props |} ],
          snd acc ++ [ has_link; belongs_link ]))%result
  end.

Definition get_user_smart_goals_query : string :=
  triple_quoted12
    [ "MATCH (u:User {value: $email})-[r1:HAS_GOAL]->(g:Goal)";
      "MATCH (g)-[r2:BELONGS_TO_USER]->(u)";
      "RETURN g, r1, r2" ].

(** With [QUERY] for the triple-quoted literal of
    [get_user_smart_goals_query]:
    [[
    async def get_user_smart_goals(user_email: str):
        try:
            with driver.session() as session:
                query = QUERY
                result = session.run(query, email=user_email)
                goals = []
                relationships = []
                for record in result: ...
                return {"goals": goals, "relationships": relationships}
        except Exception as e:
            raise HTTPException(status_code=500, detail=str(e))
    ]] *)
Definition get_user_smart_goals (user_email : string) : M UserItems :=
  try_except
    (with_driver_session (fun session =>
       (let query := get_user_smart_goals_query in
        result <- session_run store session query [("email", PStr user_email)] ;;
        lift (acc <- items_of_records "g" "HAS_GOAL" result ([], []) ;;
              Ok {| ui_items := fst acc; ui_relationships := snd acc |})%result)%world))
    (fun e => raise (HTTPException 500 (exn_str e))).

Definition get_user_metrics_query : string :=
  triple_quoted12
    [ "MATCH (u:User {value: $email})-[r1:HAS_METRIC]->(m:Metric)";
      "MATCH (m)-[r2:BELONGS_TO_USER]->(u)";
      "RETURN m, r1, r2" ].

(** [get_user_metrics] is [get_user_smart_goals] with its own query, the
    key ['m'], the type ["HAS_METRIC"] and the result key ["metrics"]. *)
Definition get_user_metrics (user_email : string) : M UserItems :=
  try_except
    (with_driver_session (fun session =>
       (let query := get_user_metrics_query in
        result <- session_run store session query [("email", PStr user_email)] ;;
        lift (acc <- items_of_records "m" "HAS_METRIC" result ([], []) ;;
              Ok {| ui_items := fst acc; ui_relationships := snd acc |})%result)%world))
    (fun e => raise (HTTPException 500 (exn_str e))).

End Main.
End Main.

(** ** main.py: the video upload *)

Module UploadVideo.

(** The exceptions of the upload: the one [subprocess.run(..., check=True)]
    raises for a non-zero exit status, and any other [Exception]. *)
Inductive os_exn : Type :=
| CalledProcessError (msg : string)
| OtherError (msg : string).

Inductive os_result (A : Type) : Type :=
| OsOk (a : A)
| OsRaise (e : os_exn).
Arguments OsOk {A} a.
Arguments OsRaise {A} e.

(** What the handler does to the file system and to the encoder, in
    order; an operation that raises leaves no event, except the encoder
    run, which is recorded when it is started. *)
Inductive fs_event : Type :=
| TempCreated (path : string)   (* NamedTemporaryFile(delete=False, suffix=".webm") *)
| Copied (path : string)        (* shutil.copyfileobj(file.file, temp_webm) *)
| Ran (argv : list string)      (* subprocess.run(argv, check=True) *)
| Unlinked (path : string).     (* os.unlink(path) *)

(** The outcomes of the system calls of one request. *)
Record System := mkSystem {
  new_temp : os_result string;
  copy : string -> os_result unit;
  now : string;                  (* datetime.now().strftime("%Y%m%d_%H%M%S") *)
  run : list string -> os_result unit;
  unlink : string -> os_result unit
}.

(** [{"filename": ..., "status": "success"}] and
    [{"error": ..., "status": "failed"}] *)
Inductive response : Type :=
| Success (filename : string)
| Failed (error : string).

Definition OUTPUT_DIR : string := "data/webcam_video_output".

(** [os.path.join(a, b)] for a relative [b], with the separator of a POSIX
    system. *)
Definition path_join (a b : string) : string := a +:+ "/" +:+ b.

(** The argument list of the encoder. *)
Definition ffmpeg_argv (temp_webm_path output_path : string) : list string :=
  [ "ffmpeg";
    "-i"; temp_webm_path;
    "-c:v"; "libx264";
    "-preset"; "slow";
    "-crf"; "18";
    "-c:a"; "aac";
    "-b:a"; "320k";
    "-ar"; "48000";
    "-af"; "highpass=f=80, lowpass=f=16000";
    "-movflags"; "+faststart";
    output_path ].

Section UploadVideo.

(** [str(e)] *)
Variable os_str : os_exn -> string.

(** The inner [try] block, after the file names are fixed:
    [[
    subprocess.run([...], check=True)
    os.unlink(temp_webm_path)
    return {"filename": output_filename, "status": "success"}
    ]] *)
Definition convert (sys : System) (temp_webm_path output_filename output_path : string)
  : os_result response * list fs_event :=
  let argv := ffmpeg_argv temp_webm_path output_path in
  match run sys argv with
  | OsRaise e => (OsRaise e, [Ran argv])
  | OsOk _ =>
      match unlink sys temp_webm_path with
      | OsRaise e => (OsRaise e, [Ran argv])
      | OsOk _ => (OsOk (Success output_filename), [Ran argv; Unlinked temp_webm_path])
      end
  end.

(** The outer [try] block:
    [[
    with tempfile.NamedTemporaryFile(delete=False, suffix=".webm") as temp_webm:
        shutil.copyfileobj(file.file, temp_webm)
        temp_webm_path = temp_webm.name
    timestamp = datetime.now().strftime("%Y%m%d_%H%M%S")
    output_filename = f"webcam_recording_{timestamp}.mp4"
    output_path = os.path.join(OUTPUT_DIR, output_filename)
    try:
        ...
    except subprocess.CalledProcessError as e:
        return {"error": f"FFmpeg conversion failed: {str(e)}", "status": "failed"}
    ]] *)
Definition store_and_convert (sys : System) : os_result response * list fs_event :=
  match new_temp sys with
  | OsRaise e => (OsRaise e, [])
  | OsOk temp_webm_path =>
      match copy sys temp_webm_path with
      | OsRaise e => (OsRaise e, [TempCreated temp_webm_path])
      | OsOk _ =>
          let timestamp := now sys in
          let output_filename := "webcam_recording_" +:+ timestamp +:+ ".mp4" in
          let output_path := path_join OUTPUT_DIR output_filename in
          match convert sys temp_webm_path output_filename output_path with
          | (OsRaise (CalledProcessError msg), events) =>
              (OsOk (Failed ("FFmpeg conversion failed: "
                             +:+ os_str (CalledProcessError msg))),
               [TempCreated temp_webm_path; Copied temp_webm_path] ++ events)
          | (r, events) =>
              (r, [TempCreated temp_webm_path; Copied temp_webm_path] ++ events)
          end
      end
  end.

(** [[
    async def upload_video(file: UploadFile = File(...)):
        try:
            ...
        except Exception as e:
            return {"error": str(e), "status": "failed"}
    ]] *)
Definition upload_video (sys : System) : response * list fs_event :=
  match store_and_convert sys with
  | (OsOk r, events) => (r, events)
  | (OsRaise e, events) => (Failed (os_str e), events)
  end.

End UploadVideo.
End UploadVideo.

(** ** The loop of [get_graph], on records of its statement *)

(** A row of [RETURN n, r, m]: [n] is a node; [r] and [m] are null when
    the optional match found nothing. *)
Record Row := mkRow {
  row_n : Node;
  row_r : option Relationship;
  row_m : option Node
}.

Definition record_of_row (row : Row) : Record_ :=
  [ ("n", RNode (row_n row));
    ("r", from_option RRel RNull (row_r row));
    ("m", from_option RNode RNull (row_m row)) ].

(** The relationship of a row leads from its [n] to its [m]. *)
Definition row_linked (row : Row) : Prop :=
  match row_r row with
  | None => True
  | Some r =>
      rel_start_node_id r = node_id (row_n row)
      /\ exists m : Node, row_m row = Some m /\ rel_end_node_id r = node_id m
  end.

(** Both nodes of a row have at least one property. *)
Definition row_nodes_have_properties (row : Row) : Prop :=
  truthy (RNode (row_n row)) = true
  /\ forall m : Node, row_m row = Some m -> truthy (RNode m) = true.

Section GraphVocabulary.

Variable isoformat : DateTime -> string.

(** The dictionary [get_graph] stores for the node [n]. *)
Definition json_of_node (n : Node) : NodeJson :=
  {| nj_id := node_id n;
     nj_labels := node_labels n;
     nj_properties := convert_properties isoformat (node_properties n) |}.

(** The dictionary [get_graph] appends for the relationship [r]. *)
Definition json_of_relationship (r : Relationship) : RelJson :=
  {| rj_id := rel_id r;
     rj_type := rel_type r;
     rj_source := rel_start_node_id r;
     rj_target := rel_end_node_id r;
     rj_properties := convert_properties isoformat (rel_properties r) |}.

(** The invariant of the [nodes] dictionary: no key twice, and every
    entry stored under its own id. *)
Definition nodes_ok (nodes : list (Z * NodeJson)) : Prop :=
  NoDup (map fst nodes) /\ map nj_id (dict_values nodes) = map fst nodes.

(** What a node block does with a node: it appends the node's entry when
    the node has a property and its id is not a key yet. *)
Definition add_node (n : Node) (nodes : list (Z * NodeJson)) : list (Z * NodeJson) :=
  if truthy (RNode n) && negb (dict_contains (node_id n) nodes)
  then nodes ++ [(node_id n, json_of_node n)]
  else nodes.

(** What the relationship block does with a relationship. *)
Definition add_relationship (r : Relationship) (relationships : list RelJson)
  : list RelJson :=
  if truthy (RRel r)
  then relationships ++ [json_of_relationship r]
  else relationships.

(** One iteration of the loop on a row. *)
Definition step_row (row : Row) (acc : list (Z * NodeJson) * list RelJson)
  : list (Z * NodeJson) * list RelJson :=
  (from_option add_node id (row_m row) (add_node (row_n row) (fst acc)),
   from_option add_relationship id (row_r row) (snd acc)).

(** The endpoints of every listed relationship are keys of [nodes]. *)
Definition endpoints_listed (acc : list (Z * NodeJson) * list RelJson) : Prop :=
  forall rj : RelJson,
    In rj (snd acc) ->
    In (rj_source rj) (map fst (fst acc)) /\ In (rj_target rj) (map fst (fst acc)).

End GraphVocabulary.

(** ** Records of the other statements *)

(** The nodes of the rows, in the order the loop of [get_graph] visits
    them: [n], then [m] when there is one. *)
Definition row_nodes (rows : list Row) : list Node :=
  flat_map (fun row => row_n row :: option_list (row_m row)) rows.

(** The relationships of the rows, in order. *)
Definition row_relationships (rows : list Row) : list Relationship :=
  flat_map (fun row => option_list (row_r row)) rows.

(** A record of [RETURN u]. *)
Definition record_of_user (u : Node) : Record_ := [("u", RNode u)].

(** A row of [RETURN g, r1, r2] (or [RETURN m, r1, r2]): an item and its
    two relationships. *)
Record ItemRow := mkItemRow {
  ir_item : Node;
  ir_has : Relationship;
  ir_belongs : Relationship
}.

Definition record_of_item_row (key : string) (row : ItemRow) : Record_ :=
  [ (key, RNode (ir_item row)); ("r1", RRel (ir_has row)); ("r2", RRel (ir_belongs row)) ].

(** A store that gives one and the same answer to every statement. *)
Definition replying (answer : result (list Record_))
  : list (string * Params) -> string -> Params -> result (list Record_) :=
  fun _ _ _ => answer.

(** The log after an operation that opened the session [sessions_opened w],
    ran one statement in it and closed it. *)
Definition ran_once (w : World) (query : string) (params : Params) : World :=
  w ++ [ EOpen (sessions_opened w); ERun (sessions_opened w) query params;
         EClose (sessions_opened w) ].

(** ** The identifier set of the specification *)

(** The specification's safe identifier: non-empty, every character a
    letter, a digit or an underscore.  It stands for the words of the
    specification only; no function of the sources computes it. *)
Definition spec_identifier_char (c : ascii) : bool :=
  let n := nat_of_ascii c in
  ((48 <=? n) && (n <=? 57) || (65 <=? n) && (n <=? 90)
   || (97 <=? n) && (n <=? 122) || (n =? 95))%nat.

Definition spec_safe_identifier (s : string) : bool :=
  negb (String.eqb s EmptyString) && forallb spec_identifier_char (list_ascii_of_string s).

(** ** A concrete store, for running the program on examples *)

Module ToyStore.

(** A store holding a fixed graph. *)
Record Graph := mkGraph {
  reachable : bool;
  nodes : list Node;
  relationships : list Relationship
}.

Definition find_node (g : Graph) (id : Z) : list Node :=
  filter (fun n => Z.eqb (node_id n) id) (nodes g).

Definition field_of_node (ns : list Node) : rvalue :=
  match ns with
  | [] => RNull
  | n :: _ => RNode n
  end.

(** The rows of [MATCH (n) OPTIONAL MATCH (n)-[r]->(m) RETURN n, r, m]
    for one node [n]: one row per outgoing relationship, or a single row
    with nulls when there is none. *)
Definition rows_of_node (g : Graph) (n : Node) : list Record_ :=
  match filter (fun r => Z.eqb (rel_start_node_id r) (node_id n)) (relationships g) with
  | [] => [ [("n", RNode n); ("r", RNull); ("m", RNull)] ]
  | rs =>
      map (fun r => [("n", RNode n); ("r", RRel r);
                     ("m", field_of_node (find_node g (rel_end_node_id r)))]) rs
  end.

Definition has_ui_node_id (id : string) (n : Node) : bool :=
  match node_properties n !! "uiNodeId" with
  | Some (VStr s) => String.eqb s id
  | _ => false
  end.

(** The store's answers.  It executes the three reading statements of the
    program; of the two relationship-creating statements it executes
    those whose [MATCH] finds no pair of endpoints (nothing is created and
    the result is empty), and it refuses every other statement, being
    read-only. *)
Definition answer (g : Graph) (history : list (string * Params))
    (query : string) (params : Params) : result (list Record_) :=
  if negb (reachable g) then
    Raise (ServiceUnavailable "Unable to retrieve routing information")
  else if String.eqb query Neo4jRouter.test_connection_query then
    Ok [ [("message", RStr "Connected!")] ]
  else if String.eqb query Neo4jConnection.get_node_by_id_query then
    match params with
    | [(_, PInt id)] => Ok (map (fun n => [("n", RNode n)]) (find_node g id))
    | _ => Raise (Neo4jError "Expected parameter(s): id")
    end
  else if String.eqb query Neo4jConnection.get_graph_query then
    match params with
    | [(_, PInt limit)] =>
        Ok (take (Z.to_nat limit) (flat_map (rows_of_node g) (nodes g)))
    | _ => Raise (Neo4jError "Expected parameter(s): limit")
    end
  else
    match params with
    | [(_, PInt a); (_, PInt b); _] =>
        match find_node g a, find_node g b with
        | _ :: _, _ :: _ => Raise (Neo4jError "read-only store")
        | _, _ => Ok []
        end
    | [(_, PStr a); (_, PStr b); _] =>
        match filter (has_ui_node_id a) (nodes g), filter (has_ui_node_id b) (nodes g) with
        | _ :: _, _ :: _ => Raise (Neo4jError "read-only store")
        | _, _ => Ok []
        end
    | _ => Raise (Neo4jError "read-only store")
    end.

(** Rendering of a [DateTime] without fraction and offset, enough for
    the examples: [YYYY-MM-DDTHH:MM:SS]. *)
Definition two_digits (z : Z) : string :=
  (if Z.ltb z 10 then "0" else EmptyString) +:+ str_int z.

Definition isoformat (d : DateTime) : string :=
  str_int (dt_year d) +:+ "-" +:+ two_digits (dt_month d) +:+ "-"
  +:+ two_digits (dt_day d) +:+ "T" +:+ two_digits (dt_hour d) +:+ ":"
  +:+ two_digits (dt_minute d) +:+ ":" +:+ two_digits (dt_second d).

(** [str(e)]: Starlette renders an [HTTPException] as its status and
    detail; the other exceptions as their message. *)
Definition exn_str (e : exn) : string :=
  match e with
  | HTTPException status detail => str_int status +:+ ": " +:+ detail
  | ServiceUnavailable msg => msg
  | Neo4jError msg => msg
  | KeyError key => "'" +:+ key +:+ "'"
  | IndexError => "list index out of range"
  | AttributeError attr => "object has no attribute '" +:+ attr +:+ "'"
  | TypeError msg => msg
  end.

(** Two people, one of them without any property, and one relationship
    from the property-less one to the other. *)
Definition anon : Node := mkNode 1 ["Person"] ∅.
Definition bob : Node := mkNode 2 ["Person"] {[ "name" := VStr "Bob" ]}.
Definition knows : Relationship :=
  mkRelationship 10 "KNOWS" 1 2 {[ "since" := VInt 2020 ]}.

Definition people : Graph := mkGraph true [anon; bob] [knows].

(** A single node that has a label and no property. *)
Definition draft : Node := mkNode 7 ["Draft"] ∅.
Definition drafts : Graph := mkGraph true [draft] [].

(** Two relationships that share their target node. *)
Definition ann : Node := mkNode 1 ["Person"] {[ "name" := VStr "Ann" ]}.
Definition cat : Node := mkNode 3 ["Person"] {[ "name" := VStr "Cat" ]}.
Definition ann_knows_bob : Relationship :=
  mkRelationship 10 "KNOWS" 1 2 {[ "since" := VInt 2020 ]}.
Definition cat_knows_bob : Relationship :=
  mkRelationship 11 "KNOWS" 3 2 {[ "since" := VInt 2021 ]}.
Definition friends : Graph :=
  mkGraph true [ann; bob; cat] [ann_knows_bob; cat_knows_bob].

Definition empty : Graph := mkGraph true [] [].
Definition unreachable : Graph := mkGraph false [] [].

(** The slices [get_graph] returns for [friends] and for [people]. *)
Definition friends_slice : GraphJson :=
  mkGraphJson
    [ json_of_node isoformat ann; json_of_node isoformat bob;
      json_of_node isoformat cat ]
    [ json_of_relationship isoformat ann_knows_bob;
      json_of_relationship isoformat cat_knows_bob ].

Definition people_slice : GraphJson :=
  mkGraphJson [ json_of_node isoformat bob ] [ json_of_relationship isoformat knows ].

End ToyStore.

(** The entry [get_users] lists for the user node [u]. *)
Definition json_of_user (isoformat : DateTime -> string) (u : Node)
  : Neo4jRouter.UserJson :=
  {| Neo4jRouter.uj_id := node_id u;
     Neo4jRouter.uj_properties := convert_properties isoformat (node_properties u) |}.

(** The entry an [/api] handler lists for the node [n]: its id and its
    properties as stored. *)
Definition item_of_node (n : Node) : Main.ItemJson :=
  {| Main.it_id := node_id n; Main.it_properties := node_properties n |}.

(** The entry the two [/api] handlers list for the relationship [r] under
    the type [type]. *)
Definition link_of_relationship
    (nodes_properties : Relationship -> gmap string value * gmap string value)
    (type : string) (r : Relationship) : Main.LinkJson :=
  {| Main.lk_id := str_int (rel_id r);
     Main.lk_type := type;
     Main.lk_from_node := {| Main.it_id := rel_start_node_id r;
                             Main.it_properties := fst (nodes_properties r) |};
     Main.lk_to_node := {| Main.it_id := rel_end_node_id r;
                           Main.it_properties := snd (nodes_properties r) |} |}.

(** The two entries of a row, in the order the loop appends them. *)
Definition links_of_row
    (nodes_properties : Relationship -> gmap string value * gmap string value)
    (has_type : string) (row : ItemRow) : list Main.LinkJson :=
  [ link_of_relationship nodes_properties has_type (ir_has row);
    link_of_relationship nodes_properties "BELONGS_TO_USER" (ir_belongs row) ].

(** ** Sample results *)

Module ToyRows.

(** Another node with the id of [ToyStore.bob], with another name. *)
Definition robert : Node := mkNode 2 ["Person"] {[ "name" := VStr "Robert" ]}.

(** Two rows whose [m] have the same id and different properties. *)
Definition twice : list Row :=
  [ mkRow ToyStore.ann (Some ToyStore.ann_knows_bob) (Some ToyStore.bob);
    mkRow ToyStore.cat (Some ToyStore.cat_knows_bob) (Some robert) ].

(** The rows [ToyStore.friends] returns for the graph statement. *)
Definition friends : list Row :=
  [ mkRow ToyStore.ann (Some ToyStore.ann_knows_bob) (Some ToyStore.bob);
    mkRow ToyStore.bob None None;
    mkRow ToyStore.cat (Some ToyStore.cat_knows_bob) (Some ToyStore.bob) ].

(** Two users, the second without any property. *)
Definition alice : Node := mkNode 20 ["User"] {[ "value" := VStr "alice@example.com" ]}.
Definition ghost : Node := mkNode 21 ["User"] ∅.

(** A goal of [alice] with its two relationships. *)
Definition goal : Node := mkNode 30 ["Goal"] {[ "title" := VStr "Run" ]}.
Definition has_goal : Relationship := mkRelationship 40 "HAS_GOAL" 20 30 ∅.
Definition belongs : Relationship := mkRelationship 41 "BELONGS_TO_USER" 30 20 ∅.
Definition goal_row : ItemRow := mkItemRow goal has_goal belongs.

(** The endpoint entities of the two relationships as the result's graph
    holds them: the goal, which the statement returns, with its
    properties; the user, which it does not return, without any. *)
Definition nodes_properties (r : Relationship)
  : gmap string value * gmap string value :=
  if Z.eqb (rel_start_node_id r) 30
  then (node_properties goal, ∅)
  else (∅, node_properties goal).

(** A request whose encoder run ends with a non-zero status, and one
    whose every step succeeds. *)
Definition encoder_fails : UploadVideo.System :=
  UploadVideo.mkSystem (UploadVideo.OsOk "/tmp/tmp1.webm")
    (fun _ => UploadVideo.OsOk tt) "20240102_030405"
    (fun _ => UploadVideo.OsRaise (UploadVideo.CalledProcessError "exit status 1"))
    (fun _ => UploadVideo.OsOk tt).

Definition all_succeed : UploadVideo.System :=
  UploadVideo.mkSystem (UploadVideo.OsOk "/tmp/tmp1.webm")
    (fun _ => UploadVideo.OsOk tt) "20240102_030405"
    (fun _ => UploadVideo.OsOk tt)
    (fun _ => UploadVideo.OsOk tt).

(** A request whose conversion succeeds and whose temporary file cannot
    be removed. *)
Definition unlink_fails : UploadVideo.System :=
  UploadVideo.mkSystem (UploadVideo.OsOk "/tmp/tmp1.webm")
    (fun _ => UploadVideo.OsOk tt) "20240102_030405"
    (fun _ => UploadVideo.OsOk tt)
    (fun _ => UploadVideo.OsRaise (UploadVideo.OtherError "Permission denied")).

Definition os_str (e : UploadVideo.os_exn) : string :=
  match e with
  | UploadVideo.CalledProcessError msg => msg
  | UploadVideo.OtherError msg => msg
  end.

End ToyRows.

(** * Properties *)

(** ** The driver log *)

Lemma queries_app (w1 w2 : World) : queries (w1 ++ w2) = queries w1 ++ queries w2.
Proof.
  induction w1 as [|e w1 IH]; [reflexivity|].
  destruct e; simpl; rewrite IH; reflexivity.
Qed.

Lemma session_open_app (s : Session) (w1 w2 : World) :
  session_open s (w1 ++ w2) = fold_left (session_step s) w2 (session_open s w1).
Proof. unfold session_open. apply fold_left_app. Qed.

Lemma session_open_after_close (s : Session) (w : World) :
  session_open s (session_close s w) = false.
Proof.
  unfold session_close. rewrite session_open_app. simpl.
  rewrite Nat.eqb_refl. reflexivity.
Qed.

(** Every operation of the program has the same shape: open a session, run
    one statement, and compute the outcome from the records without
    touching the driver again. *)
Lemma with_driver_session_run {A}
    (store : list (string * Params) -> string -> Params -> result (list Record_))
    (query : string) (params : Params)
    (k : list Record_ -> result A) (w : World) :
  with_driver_session
    (fun session =>
       (result <- session_run store session query params ;;
        lift (k result))%world) w
  = (rbind (store (queries w) query params) k,
     w ++ [EOpen (sessions_opened w); ERun (sessions_opened w) query params;
           EClose (sessions_opened w)]).
Proof.
  unfold with_driver_session, bind, driver_session, try_finally, session_run,
    lift, session_close.
  rewrite queries_app. simpl. rewrite app_nil_r.
  destruct (store (queries w) query params) as [rows|e]; simpl;
    rewrite <- !app_assoc; reflexivity.
Qed.

Lemma session_run_once {A}
    (store : list (string * Params) -> string -> Params -> result (list Record_))
    (query : string) (params : Params)
    (k : list Record_ -> result A) (w : World) :
  Neo4jConnection.session
    (fun session =>
       (result <- session_run store session query params ;;
        lift (k result))%world) w
  = (rbind (store (queries w) query params) k,
     w ++ [EOpen (sessions_opened w); ERun (sessions_opened w) query params;
           EClose (sessions_opened w)]).
Proof. apply with_driver_session_run. Qed.

(** The statements on record after such an operation: those before it and
    the one it ran. *)
Lemma queries_after_run (w : World) (s : Session) (query : string) (params : Params) :
  queries (w ++ [EOpen s; ERun s query params; EClose s])
  = queries w ++ [(query, params)].
Proof. rewrite queries_app. reflexivity. Qed.

(** ** The property converter *)

Section ConverterFacts.

Variable isoformat : DateTime -> string.

Lemma convert_value_idempotent (v : value) :
  convert_neo4j_to_python isoformat (convert_neo4j_to_python isoformat v)
  = convert_neo4j_to_python isoformat v.
Proof. destruct v; reflexivity. Qed.

Lemma convert_properties_lookup (props : gmap string value) (k : string) :
  convert_properties isoformat props !! k
  = convert_neo4j_to_python isoformat <$> props !! k.
Proof. unfold convert_properties. apply lookup_fmap. Qed.

(** C4.  Property conversion is idempotent: converting a value twice is
    converting it once, and converting a property mapping twice is
    converting it once. *)
Theorem property_conversion_idempotent :
  (forall v : value,
      convert_neo4j_to_python isoformat (convert_neo4j_to_python isoformat v)
      = convert_neo4j_to_python isoformat v)
  /\ (forall props : gmap string value,
      convert_properties isoformat (convert_properties isoformat props)
      = convert_properties isoformat props).
Proof.
  split; [exact convert_value_idempotent|].
  intros props. apply map_eq; intros k.
  rewrite !convert_properties_lookup.
  destruct (props !! k) as [v|]; simpl; [|reflexivity].
  rewrite convert_value_idempotent. reflexivity.
Qed.

(** C7.  The converter sends every [DateTime] to its ISO-8601 string,
    leaves every other value as it is, and on a property mapping converts
    the value under every key while keeping the set of keys. *)
Theorem converter_contract :
  (forall d : DateTime,
      convert_neo4j_to_python isoformat (VDateTime d) = VStr (isoformat d))
  /\ (forall v : value,
      is_DateTime v = false -> convert_neo4j_to_python isoformat v = v)
  /\ (forall props : gmap string value,
      dom (convert_properties isoformat props) = dom props
      /\ forall k : string,
          convert_properties isoformat props !! k
          = convert_neo4j_to_python isoformat <$> props !! k).
Proof.
  split; [reflexivity|]. split.
  - intros v Hv. destruct v; try reflexivity. discriminate Hv.
  - intros props. split.
    + unfold convert_properties. apply dom_fmap_L.
    + apply convert_properties_lookup.
Qed.

End ConverterFacts.

(** The contract of the converter at the integer [3], a list holding a
    [DateTime] (lists are not looked into), and a mapping with a temporal
    and a plain value. *)
Lemma converter_contract_witness :
  convert_neo4j_to_python ToyStore.isoformat (VInt 3) = VInt 3
  /\ convert_neo4j_to_python ToyStore.isoformat
       (VList [VDateTime (mkDateTime 2024 1 2 3 4 5 0 None)])
     = VList [VDateTime (mkDateTime 2024 1 2 3 4 5 0 None)]
  /\ convert_properties ToyStore.isoformat
       {[ "at" := VDateTime (mkDateTime 2024 1 2 3 4 5 0 None);
          "n" := VInt 3 ]} !! "at"
     = Some (VStr "2024-01-02T03:04:05").
Proof.
  destruct (converter_contract ToyStore.isoformat) as (_ & Hother & Hprops).
  split; [apply Hother; reflexivity|].
  split; [apply Hother; reflexivity|].
  destruct (Hprops {[ "at" := VDateTime (mkDateTime 2024 1 2 3 4 5 0 None);
                      "n" := VInt 3 ]}) as [_ Hk].
  rewrite Hk. reflexivity.
Defined.

(** ** The scoped session *)

(** C8.  The session handed to the wrapped operation is open when the
    operation starts; whatever the operation does, return or raise, the
    session is closed when the block is left, and the outcome of the block
    is the outcome of the operation. *)
Theorem session_closed_on_every_exit_path {A} (body : Session -> M A) (w : World) :
  let s := sessions_opened w in
  let out := body s (w ++ [EOpen s]) in
  session_open s (w ++ [EOpen s]) = true
  /\ Neo4jConnection.session body w = (fst out, snd out ++ [EClose s])
  /\ session_open s (snd (Neo4jConnection.session body w)) = false
  /\ (forall a, fst out = Ok a -> fst (Neo4jConnection.session body w) = Ok a)
  /\ (forall e, fst out = Raise e -> fst (Neo4jConnection.session body w) = Raise e).
Proof.
  intros s out.
  assert (Heq : Neo4jConnection.session body w = (fst out, snd out ++ [EClose s])).
  { unfold Neo4jConnection.session, bind, driver_session, try_finally, session_close.
    fold s. fold out. destruct out as [r w']. reflexivity. }
  rewrite Heq. simpl.
  split.
  { rewrite session_open_app. simpl. rewrite Nat.eqb_refl. reflexivity. }
  repeat split; auto.
  apply (session_open_after_close s (snd out)).
Qed.

(** A block that returns and a block that raises, each run in a scoped
    session: both leave the session closed. *)
Lemma session_closed_on_every_exit_path_witness :
  (fst (Neo4jConnection.session
          (fun s => session_run (ToyStore.answer ToyStore.friends) s
                      Neo4jRouter.test_connection_query []) [])
   = Ok [ [("message", RStr "Connected!")] ]
   /\ session_open 0%nat (snd (Neo4jConnection.session
          (fun s => session_run (ToyStore.answer ToyStore.friends) s
                      Neo4jRouter.test_connection_query []) [])) = false)
  /\ (fst (Neo4jConnection.session
          (fun s => session_run (ToyStore.answer ToyStore.unreachable) s
                      Neo4jRouter.test_connection_query []) [])
   = Raise (ServiceUnavailable "Unable to retrieve routing information")
   /\ session_open 0%nat (snd (Neo4jConnection.session
          (fun s => session_run (ToyStore.answer ToyStore.unreachable) s
                      Neo4jRouter.test_connection_query []) [])) = false).
Proof.
  split.
  - destruct (session_closed_on_every_exit_path
                (fun s => session_run (ToyStore.answer ToyStore.friends) s
                            Neo4jRouter.test_connection_query []) [])
      as (_ & _ & Hclosed & Hok & _).
    split; [apply Hok; reflexivity|exact Hclosed].
  - destruct (session_closed_on_every_exit_path
                (fun s => session_run (ToyStore.answer ToyStore.unreachable) s
                            Neo4jRouter.test_connection_query []) [])
      as (_ & _ & Hclosed & _ & Hraise).
    split; [apply Hraise; reflexivity|exact Hclosed].
Defined.

(** ** What each operation evaluates to *)

Section Operations.

Variable isoformat : DateTime -> string.
Variable exn_str : exn -> string.
Variable store : list (string * Params) -> string -> Params -> result (list Record_).

Lemma get_node_by_id_missing (id : Z) (w : World) :
  store (queries w) Neo4jConnection.get_node_by_id_query [("id", PInt id)]
  = Ok [] ->
  fst (Neo4jConnection.get_node_by_id isoformat store id w) = Ok None.
Proof.
  intros H. unfold Neo4jConnection.get_node_by_id.
  rewrite session_run_once, H. reflexivity.
Qed.

(** The handler of [get_node] receives the 404 raised inside its own
    [try] block and turns it into a 500. *)
Lemma get_node_missing (id : Z) (w : World) :
  store (queries w) Neo4jConnection.get_node_by_id_query [("id", PInt id)]
  = Ok [] ->
  fst (Neo4jRouter.get_node isoformat exn_str store id w)
  = Raise (HTTPException 500
             ("Neo4j error: "
              +:+ exn_str (HTTPException 404
                             ("Node with ID " +:+ str_int id +:+ " not found")))).
Proof.
  intros H.
  unfold Neo4jRouter.get_node, try_except, bind, Neo4jConnection.get_node_by_id.
  rewrite session_run_once, H. reflexivity.
Qed.

(** A node that the store returns is sent back with status 200. *)
Lemma get_node_found (id : Z) (n : Node) (w : World) :
  store (queries w) Neo4jConnection.get_node_by_id_query [("id", PInt id)]
  = Ok [ [("n", RNode n)] ] ->
  fst (Neo4jRouter.get_node isoformat exn_str store id w)
  = Ok {| nj_id := node_id n; nj_labels := node_labels n;
          nj_properties := convert_properties isoformat (node_properties n) |}.
Proof.
  intros H.
  unfold Neo4jRouter.get_node, try_except, bind, Neo4jConnection.get_node_by_id.
  rewrite session_run_once, H. reflexivity.
Qed.

(** [/neo4j/relationships]: when the statement matches no pair of
    endpoints its result has no record, and the endpoint answers 500. *)
Lemma router_create_relationship_unmatched
    (relationship : Neo4jRouter.RelationshipCreate) (w : World) :
  store (queries w)
    (Neo4jConnection.create_relationship_query (Neo4jRouter.type relationship))
    [("from_id", PInt (Neo4jRouter.from_id relationship));
     ("to_id", PInt (Neo4jRouter.to_id relationship));
     ("props", PProps (default ∅ (Neo4jRouter.rel_props relationship)))]
  = Ok [] ->
  fst (Neo4jRouter.create_relationship exn_str store relationship w)
  = Raise (HTTPException 500
             ("Neo4j error: "
              +:+ exn_str (HTTPException 500 "Failed to create relationship"))).
Proof.
  intros H.
  unfold Neo4jRouter.create_relationship, try_except, bind,
    Neo4jConnection.create_relationship.
  rewrite session_run_once, H. reflexivity.
Qed.

(** [/api/relationships]: the result of the statement is never looked
    at; whenever the store raises nothing the endpoint reports success. *)
Lemma api_create_relationship_reports_success
    (relationship : Main.RelationshipCreate) (w : World) (rows : list Record_) :
  store (queries w)
    (Main.create_relationship_query (Main.type relationship))
    [("from_id", PStr (Main.from_id relationship));
     ("to_id", PStr (Main.to_id relationship));
     ("properties", Main.param_of_props (Main.rel_props relationship))]
  = Ok rows ->
  fst (Main.create_relationship exn_str store relationship w)
  = Ok "Relationship created successfully".
Proof.
  intros H.
  unfold Main.create_relationship, try_except.
  cbv zeta. rewrite with_driver_session_run, H. reflexivity.
Qed.

End Operations.

(** ** Fetching a node that does not exist *)

(** C2.  The store [ToyStore.friends] has no node 42: its answer to the
    fetch statement is empty.  [get_node] raises its 404 inside the [try]
    block whose [except Exception] clause re-raises it as a 500, so the
    endpoint answers 500, not 404. *)
Theorem get_node_of_missing_id_answers_500 (exn_str : exn -> string) :
  ToyStore.answer ToyStore.friends []
    Neo4jConnection.get_node_by_id_query [("id", PInt 42)] = Ok []
  /\ fst (Neo4jRouter.get_node ToyStore.isoformat exn_str
            (ToyStore.answer ToyStore.friends) 42 [])
     = Raise (HTTPException 500
                ("Neo4j error: "
                 +:+ exn_str (HTTPException 404 "Node with ID 42 not found")))
  /\ http_status
       (fst (Neo4jRouter.get_node ToyStore.isoformat exn_str
               (ToyStore.answer ToyStore.friends) 42 [])) = 500.
Proof.
  assert (H : ToyStore.answer ToyStore.friends (queries [])
                Neo4jConnection.get_node_by_id_query [("id", PInt 42)] = Ok [])
    by reflexivity.
  split; [exact H|].
  rewrite (get_node_missing ToyStore.isoformat exn_str _ 42 [] H).
  split; reflexivity.
Qed.

(** ** Creating a relationship between endpoints that do not exist *)

(** C3.  On the empty store no node carries the [uiNodeId] ["a"] or ["b"]
    and no node has the id 1 or 2, so neither statement creates anything.
    [/api/relationships] answers 200 with its success message all the
    same; [/neo4j/relationships] answers 500. *)
Theorem api_create_relationship_unmatched_reports_success (exn_str : exn -> string) :
  let request := Main.mkRelationshipCreate "a" "b" "KNOWS" (Some ∅) in
  ToyStore.answer ToyStore.empty []
    (Main.create_relationship_query "KNOWS")
    [("from_id", PStr "a"); ("to_id", PStr "b"); ("properties", PProps ∅)] = Ok []
  /\ fst (Main.create_relationship exn_str (ToyStore.answer ToyStore.empty) request [])
     = Ok "Relationship created successfully"
  /\ http_status
       (fst (Main.create_relationship exn_str (ToyStore.answer ToyStore.empty) request []))
     = 200
  /\ http_status
       (fst (Neo4jRouter.create_relationship exn_str (ToyStore.answer ToyStore.empty)
               (Neo4jRouter.mkRelationshipCreate 1 2 "KNOWS" None) []))
     = 500.
Proof.
  intros request.
  assert (H : ToyStore.answer ToyStore.empty (queries [])
                (Main.create_relationship_query (Main.type request))
                [("from_id", PStr (Main.from_id request));
                 ("to_id", PStr (Main.to_id request));
                 ("properties", Main.param_of_props (Main.rel_props request))]
              = Ok []) by reflexivity.
  split; [exact H|].
  rewrite (api_create_relationship_reports_success exn_str _ request [] [] H).
  split; [reflexivity|]. split; [reflexivity|].
  rewrite router_create_relationship_unmatched; reflexivity.
Qed.

(** ** The connection test *)

Section TestConnection.

Variable exn_str : exn -> string.
Variable store : list (string * Params) -> string -> Params -> result (list Record_).

(** C9.  When the store answers the test statement with its one record,
    the endpoint returns the status ["success"] and the message
    ["Connected!"]; when the driver cannot reach the store and raises
    [ServiceUnavailable], the endpoint answers 500. *)
Theorem test_connection_contract (w : World) :
  (store (queries w) Neo4jRouter.test_connection_query []
   = Ok [ [("message", RStr "Connected!")] ] ->
   fst (Neo4jRouter.test_connection exn_str store w)
   = Ok {| Neo4jRouter.status := "success";
           Neo4jRouter.message := RStr "Connected!" |})
  /\ (forall msg : string,
      store (queries w) Neo4jRouter.test_connection_query []
      = Raise (ServiceUnavailable msg) ->
      fst (Neo4jRouter.test_connection exn_str store w)
      = Raise (HTTPException 500
                 ("Neo4j connection failed: " +:+ exn_str (ServiceUnavailable msg)))
      /\ http_status (fst (Neo4jRouter.test_connection exn_str store w)) = 500).
Proof.
  unfold Neo4jRouter.test_connection, try_except, bind,
    Neo4jConnection.execute_query.
  rewrite session_run_once. simpl default.
  split.
  - intros H. rewrite H. reflexivity.
  - intros msg H. rewrite H. split; reflexivity.
Qed.

End TestConnection.

(** The connection test against a reachable and against an unreachable
    store. *)
Lemma test_connection_contract_witness :
  fst (Neo4jRouter.test_connection ToyStore.exn_str
         (ToyStore.answer ToyStore.friends) [])
  = Ok {| Neo4jRouter.status := "success";
          Neo4jRouter.message := RStr "Connected!" |}
  /\ http_status
       (fst (Neo4jRouter.test_connection ToyStore.exn_str
               (ToyStore.answer ToyStore.unreachable) [])) = 500.
Proof.
  split.
  - apply (test_connection_contract ToyStore.exn_str
             (ToyStore.answer ToyStore.friends) []).
    reflexivity.
  - destruct (test_connection_contract ToyStore.exn_str
                (ToyStore.answer ToyStore.unreachable) []) as [_ Hdown].
    apply (Hdown "Unable to retrieve routing information").
    reflexivity.
Defined.

(** ** Labels and relationship types in the query text *)

Lemma try_except_raise_world {A} (m : M A) (f : exn -> exn) (w : World) :
  snd (try_except m (fun e => raise (f e)) w) = snd (m w).
Proof.
  unfold try_except, raise. destruct (m w) as [[a|e] w']; reflexivity.
Qed.

(** C1, as the sources have it.  No operation checks the label or the
    relationship type: whatever the string, it is placed in the query text
    as it is (between backticks in [Neo4jConnection.create_relationship]),
    the properties are bound as a parameter, and exactly one statement is
    sent to the store. *)
Theorem create_operations_send_unvalidated_identifier
    (exn_str : exn -> string)
    (store : list (string * Params) -> string -> Params -> result (list Record_))
    (w : World) :
  (forall node : Main.NodeCreate,
      queries (snd (Main.create_node exn_str store node w))
      = queries w
        ++ [ (triple_quoted
                [ "CREATE (n:" +:+ Main.label node +:+ " $properties)";
                  "RETURN n" ],
              [("properties", PProps (Main.properties node))]) ])
  /\ (forall (from_id to_id : Z) (rel_type : string)
             (properties : option (gmap string value)),
      queries (snd (Neo4jConnection.create_relationship store
                      from_id to_id rel_type properties w))
      = queries w
        ++ [ (triple_quoted
                [ "MATCH (a), (b) ";
                  "WHERE id(a) = $from_id AND id(b) = $to_id";
                  "CREATE (a)-[r:`" +:+ rel_type +:+ "`]->(b)";
                  "SET r = $props";
                  "RETURN r" ],
              [("from_id", PInt from_id); ("to_id", PInt to_id);
               ("props", PProps (default ∅ properties))]) ])
  /\ (forall node_data : Neo4jRouter.NodeCreate,
      queries (snd (Neo4jRouter.create_node exn_str store node_data w))
      = queries w
        ++ [ ("CREATE (n:" +:+ Neo4jRouter.label node_data +:+ " $props) RETURN n",
              [("props", PProps (Neo4jRouter.properties node_data))]) ])
  /\ (forall relationship : Main.RelationshipCreate,
      queries (snd (Main.create_relationship exn_str store relationship w))
      = queries w
        ++ [ (triple_quoted
                [ "MATCH (from) WHERE from.uiNodeId = $from_id";
                  "MATCH (to) WHERE to.uiNodeId = $to_id";
                  "CREATE (from)-[r:" +:+ Main.type relationship +:+ "]->(to)";
                  "SET r += $properties";
                  "RETURN r" ],
              [("from_id", PStr (Main.from_id relationship));
               ("to_id", PStr (Main.to_id relationship));
               ("properties", Main.param_of_props (Main.rel_props relationship))]) ]).
Proof.
  repeat split.
  - intros node. unfold Main.create_node.
    rewrite try_except_raise_world, with_driver_session_run. simpl snd.
    apply queries_after_run.
  - intros from_id to_id rel_type properties.
    unfold Neo4jConnection.create_relationship.
    rewrite session_run_once. simpl snd. apply queries_after_run.
  - intros node_data. unfold Neo4jRouter.create_node.
    rewrite try_except_raise_world, session_run_once. simpl snd.
    apply queries_after_run.
  - intros relationship. unfold Main.create_relationship. cbv zeta.
    rewrite try_except_raise_world, with_driver_session_run. simpl snd.
    apply queries_after_run.
Qed.

(** What the two operations do with the string [a`b]. *)
Example backtick_label_trace :
  queries (snd (Main.create_node ToyStore.exn_str (ToyStore.answer ToyStore.empty)
                  (Main.mkNodeCreate "a`b" ∅) []))
  = [ (triple_quoted ["CREATE (n:a`b $properties)"; "RETURN n"],
       [("properties", PProps ∅)]) ]
  /\ Neo4jConnection.create_relationship (ToyStore.answer ToyStore.empty)
       1 2 "a`b" None []
     = (Ok None,
        [ EOpen 0%nat;
          ERun 0%nat
            (triple_quoted
               [ "MATCH (a), (b) ";
                 "WHERE id(a) = $from_id AND id(b) = $to_id";
                 "CREATE (a)-[r:`a`b`]->(b)";
                 "SET r = $props";
                 "RETURN r" ])
            [("from_id", PInt 1); ("to_id", PInt 2); ("props", PProps ∅)];
          EClose 0%nat ]).
Proof. split; reflexivity. Qed.

(** C1 as stated fails.  The string [a`b] holds a backtick, so it is
    outside the specification's identifier set; [create_node] still sends a
    statement to the store, and [Neo4jConnection.create_relationship] sends
    one too and returns without any error. *)
Lemma unsafe_identifier_reaches_the_store :
  spec_safe_identifier "a`b" = false
  /\ queries (snd (Main.create_node ToyStore.exn_str (ToyStore.answer ToyStore.empty)
                     (Main.mkNodeCreate "a`b" ∅) [])) <> []
  /\ queries (snd (Neo4jConnection.create_relationship
                     (ToyStore.answer ToyStore.empty) 1 2 "a`b" None [])) <> []
  /\ fst (Neo4jConnection.create_relationship
            (ToyStore.answer ToyStore.empty) 1 2 "a`b" None []) = Ok None.
Proof.
  split; [reflexivity|].
  split; [discriminate|].
  split; [discriminate|reflexivity].
Qed.

(** ** The graph slice *)

Section PyDictFacts.
Context {V : Type}.

Lemma dict_contains_In (k : Z) (d : list (Z * V)) :
  dict_contains k d = true <-> In k (map fst d).
Proof.
  induction d as [|[k' v'] d IH]; simpl.
  - split; [discriminate|tauto].
  - destruct (Z.eqb_spec k' k) as [->|Hne].
    + split; auto.
    + rewrite IH. split; [auto|]. intros [Heq|Hin]; [contradiction|exact Hin].
Qed.

Lemma dict_contains_not_In (k : Z) (d : list (Z * V)) :
  dict_contains k d = false -> ~ In k (map fst d).
Proof.
  intros Hf Hin. apply dict_contains_In in Hin. congruence.
Qed.

(** Assigning under a key the dictionary does not hold appends the
    entry. *)
Lemma dict_setitem_fresh (k : Z) (v : V) (d : list (Z * V)) :
  dict_contains k d = false -> dict_setitem k v d = d ++ [(k, v)].
Proof.
  induction d as [|[k' v'] d IH]; simpl; [reflexivity|].
  destruct (Z.eqb k' k); [discriminate|].
  intros H. rewrite (IH H). reflexivity.
Qed.

End PyDictFacts.

Section GraphSlice.

Variable isoformat : DateTime -> string.

(** A node block either leaves [nodes] alone or appends the entry of a
    node that has a property and whose id was not a key yet. *)
Lemma visit_node_cases (record : Record_) (key : string)
    (nodes nodes' : list (Z * NodeJson)) :
  Neo4jConnection.visit_node isoformat record key nodes = Ok nodes' ->
  nodes' = nodes
  \/ exists n : Node,
      record_getitem record key = Ok (RNode n)
      /\ truthy (RNode n) = true
      /\ dict_contains (node_id n) nodes = false
      /\ nodes' = nodes ++ [(node_id n, json_of_node isoformat n)].
Proof.
  unfold Neo4jConnection.visit_node.
  destruct (record_getitem record key) as [x|e] eqn:Hx; simpl; [|discriminate].
  destruct (truthy x) eqn:Ht; [|intros [= <-]; left; reflexivity].
  destruct x as [|n|r|s]; simpl; try discriminate.
  - destruct (dict_contains (node_id n) nodes) eqn:Hc.
    + intros [= <-]. left. reflexivity.
    + intros [= <-]. right. exists n.
      rewrite (dict_setitem_fresh _ _ _ Hc). auto.
  - destruct (dict_contains (rel_id r) nodes); [|discriminate].
    intros [= <-]. left. reflexivity.
Qed.

(** A relationship block either leaves [relationships] alone or appends
    the entry of a relationship that has a property. *)
Lemma visit_relationship_cases (record : Record_)
    (relationships relationships' : list RelJson) :
  Neo4jConnection.visit_relationship isoformat record relationships
  = Ok relationships' ->
  relationships' = relationships
  \/ exists r : Relationship,
      record_getitem record "r" = Ok (RRel r)
      /\ truthy (RRel r) = true
      /\ relationships' = relationships ++ [json_of_relationship isoformat r].
Proof.
  unfold Neo4jConnection.visit_relationship.
  destruct (record_getitem record "r") as [x|e] eqn:Hx; simpl; [|discriminate].
  destruct (truthy x) eqn:Ht; [|intros [= <-]; left; reflexivity].
  destruct x as [|n|r|s]; simpl; try discriminate.
  intros [= <-]. right. exists r. auto.
Qed.

Lemma nodes_ok_empty : nodes_ok [].
Proof. split; [constructor|reflexivity]. Qed.

Lemma nodes_ok_append (nodes : list (Z * NodeJson)) (n : Node) :
  nodes_ok nodes ->
  dict_contains (node_id n) nodes = false ->
  nodes_ok (nodes ++ [(node_id n, json_of_node isoformat n)]).
Proof.
  intros [Hnd Hids] Hc. unfold nodes_ok, dict_values in *.
  rewrite !map_app, Hids. simpl. split; [|reflexivity].
  apply NoDup_app. split; [exact Hnd|]. split.
  - intros k Hk Hin. apply list_elem_of_In in Hk.
    apply list_elem_of_In in Hin. destruct Hin as [<-|[]].
    exact (dict_contains_not_In _ _ Hc Hk).
  - apply NoDup_singleton.
Qed.

Lemma visit_node_ok (record : Record_) (key : string)
    (nodes nodes' : list (Z * NodeJson)) :
  Neo4jConnection.visit_node isoformat record key nodes = Ok nodes' ->
  nodes_ok nodes -> nodes_ok nodes'.
Proof.
  intros H Hok.
  destruct (visit_node_cases _ _ _ _ H) as [->|(n & _ & _ & Hc & ->)];
    [exact Hok|].
  apply nodes_ok_append; assumption.
Qed.

Lemma visit_records_ok (records : list Record_)
    (acc acc' : list (Z * NodeJson) * list RelJson) :
  Neo4jConnection.visit_records isoformat records acc = Ok acc' ->
  nodes_ok (fst acc) -> nodes_ok (fst acc').
Proof.
  revert acc. induction records as [|record rest IH]; intros acc; simpl.
  - intros [= <-]. auto.
  - unfold Neo4jConnection.visit_record.
    destruct (Neo4jConnection.visit_node isoformat record "n" (fst acc))
      as [nodes1|e] eqn:H1; simpl; [|discriminate].
    destruct (Neo4jConnection.visit_node isoformat record "m" nodes1)
      as [nodes2|e] eqn:H2; simpl; [|discriminate].
    destruct (Neo4jConnection.visit_relationship isoformat record (snd acc))
      as [rels|e] eqn:H3; simpl; [|discriminate].
    intros Hrest Hok. apply (IH _ Hrest). simpl.
    eapply visit_node_ok; [exact H2|].
    eapply visit_node_ok; [exact H1|exact Hok].
Qed.

End GraphSlice.

(** *** Records of the graph statement *)

Section GraphRows.

Variable isoformat : DateTime -> string.

Lemma visit_node_node (record : Record_) (key : string) (n : Node)
    (nodes : list (Z * NodeJson)) :
  record_getitem record key = Ok (RNode n) ->
  Neo4jConnection.visit_node isoformat record key nodes = Ok (add_node isoformat n nodes).
Proof.
  intros H. unfold Neo4jConnection.visit_node, add_node. rewrite H. simpl.
  destruct (negb (size (node_properties n) =? 0)%nat); [|reflexivity].
  simpl. destruct (dict_contains (node_id n) nodes) eqn:Hc; [reflexivity|].
  simpl. rewrite (dict_setitem_fresh _ _ _ Hc). reflexivity.
Qed.

Lemma visit_node_null (record : Record_) (key : string)
    (nodes : list (Z * NodeJson)) :
  record_getitem record key = Ok RNull ->
  Neo4jConnection.visit_node isoformat record key nodes = Ok nodes.
Proof.
  intros H. unfold Neo4jConnection.visit_node. rewrite H. reflexivity.
Qed.

(** On a record of the graph statement an iteration of the loop raises
    nothing. *)
Lemma visit_record_row (row : Row) (acc : list (Z * NodeJson) * list RelJson) :
  Neo4jConnection.visit_record isoformat (record_of_row row) acc
  = Ok (step_row isoformat row acc).
Proof.
  destruct row as [n r m]. unfold Neo4jConnection.visit_record, step_row.
  rewrite (visit_node_node _ "n" n) by reflexivity. simpl rbind.
  assert (Hm : Neo4jConnection.visit_node isoformat
                 (record_of_row (mkRow n r m)) "m" (add_node isoformat n (fst acc))
               = Ok (from_option (add_node isoformat) id m (add_node isoformat n (fst acc)))).
  { destruct m as [m|]; simpl from_option.
    - apply visit_node_node. reflexivity.
    - apply visit_node_null. reflexivity. }
  simpl row_m. simpl row_n. rewrite Hm. simpl rbind.
  unfold Neo4jConnection.visit_relationship, add_relationship.
  destruct r as [r|]; simpl; [|reflexivity].
  destruct (negb (size (rel_properties r) =? 0)%nat); reflexivity.
Qed.

Lemma visit_records_rows (rows : list Row)
    (acc : list (Z * NodeJson) * list RelJson) :
  Neo4jConnection.visit_records isoformat (map record_of_row rows) acc
  = Ok (fold_left (fun a row => step_row isoformat row a) rows acc).
Proof.
  revert acc. induction rows as [|row rows IH]; intros acc; [reflexivity|].
  simpl. rewrite visit_record_row. simpl. apply IH.
Qed.

(** The mapper returns a graph for every result of the graph statement. *)
Lemma graph_of_records_rows (rows : list Row) :
  Neo4jConnection.graph_of_records isoformat (map record_of_row rows)
  = Ok {| g_nodes :=
            dict_values (fst (fold_left (fun a row => step_row isoformat row a) rows ([], [])));
          g_relationships :=
            snd (fold_left (fun a row => step_row isoformat row a) rows ([], [])) |}.
Proof.
  unfold Neo4jConnection.graph_of_records. rewrite visit_records_rows.
  reflexivity.
Qed.

(** C5.  Whatever records the loop of [get_graph] is given, the node list
    it returns holds every node id at most once; so does the node list of
    every graph slice [get_graph] returns. *)
Theorem graph_nodes_deduplicated
    (store : list (string * Params) -> string -> Params -> result (list Record_)) :
  (forall (records : list Record_) (g : GraphJson),
      Neo4jConnection.graph_of_records isoformat records = Ok g ->
      NoDup (map nj_id (g_nodes g)))
  /\ (forall (limit : Z) (w : World) (g : GraphJson),
      fst (Neo4jConnection.get_graph isoformat store limit w) = Ok g ->
      NoDup (map nj_id (g_nodes g))).
Proof.
  assert (Hloop : forall (records : list Record_) (g : GraphJson),
             Neo4jConnection.graph_of_records isoformat records = Ok g ->
             NoDup (map nj_id (g_nodes g))).
  { intros records g. unfold Neo4jConnection.graph_of_records.
    destruct (Neo4jConnection.visit_records isoformat records ([], []))
      as [acc|e] eqn:Hacc; simpl; [|discriminate].
    intros [= <-]. simpl.
    destruct (visit_records_ok isoformat _ _ _ Hacc nodes_ok_empty)
      as [Hnd Hids].
    rewrite Hids. exact Hnd. }
  split; [exact Hloop|].
  intros limit w g. unfold Neo4jConnection.get_graph.
  rewrite session_run_once. simpl fst.
  destruct (store (queries w) Neo4jConnection.get_graph_query
              [("limit", PInt limit)]) as [records|e]; simpl; [|discriminate].
  apply Hloop.
Qed.

End GraphRows.

(** In [ToyStore.friends] two relationships share the target node 2; the
    node list of the slice holds the ids 1, 2 and 3 once each. *)
Lemma graph_nodes_deduplicated_witness :
  fst (Neo4jConnection.get_graph ToyStore.isoformat
         (ToyStore.answer ToyStore.friends) 100 [])
  = Ok ToyStore.friends_slice
  /\ map nj_id (g_nodes ToyStore.friends_slice) = [1; 2; 3]
  /\ NoDup (map nj_id (g_nodes ToyStore.friends_slice)).
Proof.
  split; [reflexivity|]. split; [reflexivity|].
  destruct (graph_nodes_deduplicated ToyStore.isoformat
              (ToyStore.answer ToyStore.friends)) as [_ Hslice].
  apply (Hslice 100 [] ToyStore.friends_slice).
  reflexivity.
Defined.

Section GraphDefect.

Variable isoformat : DateTime -> string.

Lemma add_node_keeps_keys (n : Node) (nodes : list (Z * NodeJson)) (k : Z) :
  In k (map fst nodes) -> In k (map fst (add_node isoformat n nodes)).
Proof.
  unfold add_node.
  destruct (truthy (RNode n) && negb (dict_contains (node_id n) nodes));
    [|auto].
  rewrite map_app. intros H. apply in_or_app. left. exact H.
Qed.

Lemma add_node_has_key (n : Node) (nodes : list (Z * NodeJson)) :
  truthy (RNode n) = true ->
  In (node_id n) (map fst (add_node isoformat n nodes)).
Proof.
  intros Ht. unfold add_node. rewrite Ht. simpl.
  destruct (dict_contains (node_id n) nodes) eqn:Hc; simpl.
  - apply dict_contains_In. exact Hc.
  - rewrite map_app. apply in_or_app. right. left. reflexivity.
Qed.

Lemma add_node_ids (n : Node) (nodes : list (Z * NodeJson)) :
  map nj_id (dict_values nodes) = map fst nodes ->
  map nj_id (dict_values (add_node isoformat n nodes))
  = map fst (add_node isoformat n nodes).
Proof.
  intros H. unfold add_node.
  destruct (truthy (RNode n) && negb (dict_contains (node_id n) nodes));
    [|exact H].
  unfold dict_values in *. rewrite !map_app, H. reflexivity.
Qed.

(** A row whose optional match found nothing adds no relationship entry;
    its node is a key afterwards when it has a property, and is left out
    when it has none. *)
Lemma unmatched_row_contribution (n : Node)
    (acc acc' : list (Z * NodeJson) * list RelJson) :
  Neo4jConnection.visit_record isoformat
    (record_of_row (mkRow n None None)) acc = Ok acc' ->
  snd acc' = snd acc
  /\ (truthy (RNode n) = true -> In (node_id n) (map fst (fst acc')))
  /\ (truthy (RNode n) = false -> fst acc' = fst acc).
Proof.
  rewrite visit_record_row. intros [= <-]. unfold step_row.
  cbn [fst snd row_n row_m row_r from_option id].
  split; [reflexivity|]. split.
  - apply add_node_has_key.
  - intros Ht. unfold add_node. rewrite Ht. reflexivity.
Qed.

Lemma step_row_endpoints (row : Row) (acc : list (Z * NodeJson) * list RelJson) :
  row_linked row -> row_nodes_have_properties row ->
  endpoints_listed acc -> endpoints_listed (step_row isoformat row acc).
Proof.
  destruct row as [n r m]. unfold row_linked, row_nodes_have_properties.
  simpl. intros Hlink [Hn Hm] Hacc rj. unfold step_row. simpl.
  assert (Hkeep : forall k, In k (map fst (fst acc)) ->
            In k (map fst (from_option (add_node isoformat) id m
                             (add_node isoformat n (fst acc))))).
  { intros k Hk. apply (add_node_keeps_keys n) in Hk.
    destruct m as [m|]; simpl; [apply add_node_keeps_keys|]; exact Hk. }
  assert (Hold : In rj (snd acc) ->
            In (rj_source rj) (map fst (from_option (add_node isoformat) id m
                                          (add_node isoformat n (fst acc))))
            /\ In (rj_target rj) (map fst (from_option (add_node isoformat) id m
                                             (add_node isoformat n (fst acc))))).
  { intros Hin. destruct (Hacc rj Hin). split; apply Hkeep; assumption. }
  destruct r as [r|]; simpl; [|exact Hold].
  unfold add_relationship. destruct (truthy (RRel r)); [|exact Hold].
  intros Hin. apply in_app_or in Hin. destruct Hin as [Hin|[<-|[]]];
    [exact (Hold Hin)|].
  destruct Hlink as (Hstart & m' & -> & Hend). simpl.
  rewrite Hstart, Hend. split.
  - apply add_node_keeps_keys. apply add_node_has_key. exact Hn.
  - apply add_node_has_key. apply Hm. reflexivity.
Qed.

Lemma step_row_ids (row : Row) (acc : list (Z * NodeJson) * list RelJson) :
  map nj_id (dict_values (fst acc)) = map fst (fst acc) ->
  map nj_id (dict_values (fst (step_row isoformat row acc)))
  = map fst (fst (step_row isoformat row acc)).
Proof.
  intros H. unfold step_row. simpl.
  destruct (row_m row) as [m|]; simpl; repeat apply add_node_ids; exact H.
Qed.

(** When every node of the result has at least one property, the slice
    lists both endpoints of each of its relationships. *)
Lemma graph_consistent_when_nodes_have_properties (rows : list Row) (g : GraphJson) :
  Forall row_linked rows ->
  Forall row_nodes_have_properties rows ->
  Neo4jConnection.graph_of_records isoformat (map record_of_row rows) = Ok g ->
  forall rj : RelJson,
    In rj (g_relationships g) ->
    In (rj_source rj) (map nj_id (g_nodes g))
    /\ In (rj_target rj) (map nj_id (g_nodes g)).
Proof.
  intros Hlink Hprops. rewrite graph_of_records_rows. intros [= <-]. simpl.
  assert (H : forall acc,
             endpoints_listed acc ->
             map nj_id (dict_values (fst acc)) = map fst (fst acc) ->
             endpoints_listed (fold_left (fun a row => step_row isoformat row a) rows acc)
             /\ map nj_id (dict_values
                   (fst (fold_left (fun a row => step_row isoformat row a) rows acc)))
                = map fst (fst (fold_left (fun a row => step_row isoformat row a) rows acc))).
  { induction rows as [|row rows IH]; intros acc Hacc Hids; [split; assumption|].
    simpl. inversion Hlink; subst. inversion Hprops; subst.
    apply IH; try assumption.
    - apply step_row_endpoints; assumption.
    - apply step_row_ids; assumption. }
  destruct (H ([], [])) as [Hend Hids]; [intros rj []|reflexivity|].
  intros rj Hin. rewrite Hids. exact (Hend rj Hin).
Qed.

End GraphDefect.

(** C6.  [ToyStore.drafts] holds one node, with a label and no property,
    and no relationship: the graph statement returns the one record
    [(n, null, null)].  The truth test [if record["n"]] is false for a node
    without properties, so the slice lists no node at all. *)
Theorem unmatched_property_less_node_is_left_out :
  ToyStore.answer ToyStore.drafts []
    Neo4jConnection.get_graph_query [("limit", PInt 100)]
  = Ok [ record_of_row (mkRow ToyStore.draft None None) ]
  /\ fst (Neo4jConnection.get_graph ToyStore.isoformat
            (ToyStore.answer ToyStore.drafts) 100 [])
     = Ok {| g_nodes := []; g_relationships := [] |}.
Proof. split; reflexivity. Qed.

(** C10.  In [ToyStore.people] the relationship 10 leads from node 1, which
    has no property, to node 2.  The slice lists the relationship with the
    source 1, and its node list holds node 2 only. *)
Theorem relationship_source_missing_from_node_list :
  ToyStore.answer ToyStore.people []
    Neo4jConnection.get_graph_query [("limit", PInt 100)]
  = Ok [ record_of_row (mkRow ToyStore.anon (Some ToyStore.knows) (Some ToyStore.bob));
         record_of_row (mkRow ToyStore.bob None None) ]
  /\ fst (Neo4jConnection.get_graph ToyStore.isoformat
            (ToyStore.answer ToyStore.people) 100 [])
     = Ok ToyStore.people_slice
  /\ map rj_source (g_relationships ToyStore.people_slice) = [1]
  /\ map nj_id (g_nodes ToyStore.people_slice) = [2]
  /\ ~ In 1 (map nj_id (g_nodes ToyStore.people_slice)).
Proof.
  repeat split. simpl. intros [H|[]]. discriminate H.
Qed.


(** * Further properties of the sources *)

(** ** Sessions and statements of every operation *)

Lemma bind_pure_world {A B} (m : M A) (k : A -> M B) (w : World) :
  (forall a w', snd (k a w') = w') -> snd (bind m k w) = snd (m w).
Proof.
  intros Hk. unfold bind. destruct (m w) as [[a|e] w']; simpl; [apply Hk|reflexivity].
Qed.

Lemma try_except_500_status {A} (m : M A) (f : exn -> string) (w : World) :
  http_status (fst (try_except m (fun e => raise (HTTPException 500 (f e))) w)) = 200
  \/ http_status (fst (try_except m (fun e => raise (HTTPException 500 (f e))) w)) = 500.
Proof.
  unfold try_except, raise. destruct (m w) as [[a|e] w']; simpl; auto.
Qed.

Lemma session_ran_once {A}
    (store : list (string * Params) -> string -> Params -> result (list Record_))
    (query : string) (params : Params)
    (k : list Record_ -> result A) (w : World) :
  snd (Neo4jConnection.session
         (fun session =>
            (result <- session_run store session query params ;;
             lift (k result))%world) w)
  = ran_once w query params.
Proof. rewrite session_run_once. reflexivity. Qed.

Lemma driver_session_ran_once {A}
    (store : list (string * Params) -> string -> Params -> result (list Record_))
    (query : string) (params : Params)
    (k : list Record_ -> result A) (w : World) :
  snd (with_driver_session
         (fun session =>
            (result <- session_run store session query params ;;
             lift (k result))%world) w)
  = ran_once w query params.
Proof. rewrite with_driver_session_run. reflexivity. Qed.

Lemma ran_once_closed (w : World) (query : string) (params : Params) :
  session_open (sessions_opened w) (ran_once w query params) = false.
Proof.
  unfold ran_once. rewrite session_open_app. simpl.
  rewrite Nat.eqb_refl. reflexivity.
Qed.

Section OneStatement.

Variable isoformat : DateTime -> string.
Variable exn_str : exn -> string.
Variable store : list (string * Params) -> string -> Params -> result (list Record_).
Variable nodes_properties : Relationship -> gmap string value * gmap string value.

(** X1.  Each operation of [Neo4jConnection] opens one session, sends one
    statement in it and closes it, whatever the store answers and whether
    or not the mapping of the records raises: nothing else reaches the
    driver, and the session is closed afterwards. *)
Theorem connection_operations_run_one_statement (w : World) :
  (forall id : Z,
      snd (Neo4jConnection.get_node_by_id isoformat store id w)
      = ran_once w Neo4jConnection.get_node_by_id_query [("id", PInt id)])
  /\ (forall (from_id to_id : Z) (rel_type : string)
             (properties : option (gmap string value)),
      snd (Neo4jConnection.create_relationship store from_id to_id rel_type properties w)
      = ran_once w (Neo4jConnection.create_relationship_query rel_type)
          [("from_id", PInt from_id); ("to_id", PInt to_id);
           ("props", PProps (default ∅ properties))])
  /\ (forall limit : Z,
      snd (Neo4jConnection.get_graph isoformat store limit w)
      = ran_once w Neo4jConnection.get_graph_query [("limit", PInt limit)])
  /\ (forall (query : string) (params : option Params),
      snd (Neo4jConnection.execute_query store query params w)
      = ran_once w query (default [] params))
  /\ (forall (query : string) (params : Params),
      session_open (sessions_opened w) (ran_once w query params) = false).
Proof.
  repeat split; intros.
  - apply session_ran_once.
  - apply session_ran_once.
  - apply session_ran_once.
  - apply session_ran_once.
  - apply ran_once_closed.
Qed.

(** X2.  Each HTTP handler of the router and of main.py that talks to the
    store opens one session, sends one statement and closes the session,
    also on the paths that end in an [HTTPException]. *)
Theorem handlers_run_one_statement (w : World) :
  (forall node_data : Neo4jRouter.NodeCreate,
      snd (Neo4jRouter.create_node exn_str store node_data w)
      = ran_once w (Neo4jRouter.create_node_query (Neo4jRouter.label node_data))
          [("props", PProps (Neo4jRouter.properties node_data))])
  /\ (forall id : Z,
      snd (Neo4jRouter.get_node isoformat exn_str store id w)
      = ran_once w Neo4jConnection.get_node_by_id_query [("id", PInt id)])
  /\ (forall relationship : Neo4jRouter.RelationshipCreate,
      snd (Neo4jRouter.create_relationship exn_str store relationship w)
      = ran_once w
          (Neo4jConnection.create_relationship_query (Neo4jRouter.type relationship))
          [("from_id", PInt (Neo4jRouter.from_id relationship));
           ("to_id", PInt (Neo4jRouter.to_id relationship));
           ("props", PProps (default ∅ (Neo4jRouter.rel_props relationship)))])
  /\ (forall limit : Z,
      snd (Neo4jRouter.get_graph isoformat exn_str store limit w)
      = ran_once w Neo4jConnection.get_graph_query [("limit", PInt limit)])
  /\ snd (Neo4jRouter.test_connection exn_str store w)
     = ran_once w Neo4jRouter.test_connection_query []
  /\ snd (Neo4jRouter.get_users isoformat exn_str store w)
     = ran_once w Neo4jRouter.get_users_query []
  /\ (forall node : Main.NodeCreate,
      snd (Main.create_node exn_str store node w)
      = ran_once w (Main.create_node_query (Main.label node))
          [("properties", PProps (Main.properties node))])
  /\ (forall relationship : Main.RelationshipCreate,
      snd (Main.create_relationship exn_str store relationship w)
      = ran_once w (Main.create_relationship_query (Main.type relationship))
          [("from_id", PStr (Main.from_id relationship));
           ("to_id", PStr (Main.to_id relationship));
           ("properties", Main.param_of_props (Main.rel_props relationship))])
  /\ (forall email : string,
      snd (Main.get_user_node store email w)
      = ran_once w Main.get_user_node_query [("email", PStr email)])
  /\ (forall user_email : string,
      snd (Main.get_user_smart_goals exn_str store nodes_properties user_email w)
      = ran_once w Main.get_user_smart_goals_query [("email", PStr user_email)])
  /\ (forall user_email : string,
      snd (Main.get_user_metrics exn_str store nodes_properties user_email w)
      = ran_once w Main.get_user_metrics_query [("email", PStr user_email)]).
Proof.
  repeat split; intros.
  - unfold Neo4jRouter.create_node.
    rewrite try_except_raise_world. apply session_ran_once.
  - unfold Neo4jRouter.get_node. rewrite try_except_raise_world.
    rewrite bind_pure_world by (intros [n|] w'; reflexivity).
    apply session_ran_once.
  - unfold Neo4jRouter.create_relationship. rewrite try_except_raise_world.
    rewrite bind_pure_world by (intros [r|] w'; reflexivity).
    apply session_ran_once.
  - unfold Neo4jRouter.get_graph. rewrite try_except_raise_world.
    apply session_ran_once.
  - unfold Neo4jRouter.test_connection. rewrite try_except_raise_world.
    rewrite bind_pure_world by (intros rows w'; reflexivity).
    apply session_ran_once.
  - unfold Neo4jRouter.get_users. rewrite try_except_raise_world.
    apply session_ran_once.
  - unfold Main.create_node. rewrite try_except_raise_world.
    apply driver_session_ran_once.
  - unfold Main.create_relationship. cbv zeta. rewrite try_except_raise_world.
    apply driver_session_ran_once.
  - apply driver_session_ran_once.
  - unfold Main.get_user_smart_goals. cbv zeta. rewrite try_except_raise_world.
    apply driver_session_ran_once.
  - unfold Main.get_user_metrics. cbv zeta. rewrite try_except_raise_world.
    apply driver_session_ran_once.
Qed.

(** X3.  Every handler that wraps its body in [except Exception] answers
    with the status 200 or 500 and with no other, whatever the request and
    whatever the store does: the 404 of [get_node] and every error of the
    driver and of the mapping end as a 500. *)
Theorem wrapped_handlers_answer_200_or_500 (w : World) :
  let two (status : Z) := status = 200 \/ status = 500 in
  (forall node_data, two (http_status (fst (Neo4jRouter.create_node exn_str store node_data w))))
  /\ (forall id, two (http_status (fst (Neo4jRouter.get_node isoformat exn_str store id w))))
  /\ (forall relationship,
      two (http_status (fst (Neo4jRouter.create_relationship exn_str store relationship w))))
  /\ (forall limit, two (http_status (fst (Neo4jRouter.get_graph isoformat exn_str store limit w))))
  /\ two (http_status (fst (Neo4jRouter.test_connection exn_str store w)))
  /\ two (http_status (fst (Neo4jRouter.get_users isoformat exn_str store w)))
  /\ (forall node, two (http_status (fst (Main.create_node exn_str store node w))))
  /\ (forall relationship,
      two (http_status (fst (Main.create_relationship exn_str store relationship w))))
  /\ (forall user_email,
      two (http_status
             (fst (Main.get_user_smart_goals exn_str store nodes_properties user_email w))))
  /\ (forall user_email,
      two (http_status
             (fst (Main.get_user_metrics exn_str store nodes_properties user_email w)))).
Proof.
  intros two. unfold two. repeat split; intros;
    first [ apply try_except_500_status
          | apply (try_except_500_status _ (fun e => "Neo4j error: " +:+ exn_str e))
          | apply (try_except_500_status _
                     (fun e => "Neo4j connection failed: " +:+ exn_str e)) ].
Qed.

End OneStatement.

(** ** Outcomes of the operations *)

Lemma record_getitem_missing (record : Record_) (key : string) :
  ~ In key (map fst record) -> record_getitem record key = Raise (KeyError key).
Proof.
  induction record as [|[k v] record IH]; simpl; [reflexivity|].
  intros Hnot. destruct (String.eqb_spec k key) as [->|Hne].
  - exfalso. apply Hnot. left. reflexivity.
  - apply IH. intros Hin. apply Hnot. right. exact Hin.
Qed.

Lemma try_except_raises {A} (m : M A) (f : exn -> string) (w : World) (e : exn) :
  fst (m w) = Raise e ->
  fst (try_except m (fun e' => raise (HTTPException 500 (f e'))) w)
  = Raise (HTTPException 500 (f e)).
Proof.
  unfold try_except, raise. destruct (m w) as [[a|e'] w']; simpl; [discriminate|].
  intros [= ->]. reflexivity.
Qed.




Section Outcomes.

Variable isoformat : DateTime -> string.
Variable exn_str : exn -> string.
Variable store : list (string * Params) -> string -> Params -> result (list Record_).
Variable nodes_properties : Relationship -> gmap string value * gmap string value.




(** X7.  [/api/relationships] answers by the outcome of sending the
    statement alone: the success message whenever the driver raises
    nothing, whatever records come back, and a 500 with the text of the
    exception otherwise. *)
Theorem api_create_relationship_ignores_the_result
    (relationship : Main.RelationshipCreate) (w : World) :
  fst (Main.create_relationship exn_str store relationship w)
  = match store (queries w)
            (Main.create_relationship_query (Main.type relationship))
            [("from_id", PStr (Main.from_id relationship));
             ("to_id", PStr (Main.to_id relationship));
             ("properties", Main.param_of_props (Main.rel_props relationship))]
    with
    | Ok _ => Ok "Relationship created successfully"
    | Raise e => Raise (HTTPException 500 (exn_str e))
    end.
Proof.
  unfold Main.create_relationship, try_except. cbv zeta.
  rewrite with_driver_session_run.
  destruct (store _ _ _) as [rows|e]; reflexivity.
Qed.

(** X8.  [/api/nodes]: the created node is sent back with its id and its
    properties as stored; when the result has no record, subscripting
    [None] raises a [TypeError] and the answer is a 500 carrying its text. *)
Theorem api_create_node_outcomes (node : Main.NodeCreate) (w : World) :
  let answer :=
    store (queries w) (Main.create_node_query (Main.label node))
      [("properties", PProps (Main.properties node))] in
  (forall n : Node,
      answer = Ok [ [("n", RNode n)] ] ->
      fst (Main.create_node exn_str store node w)
      = Ok {| Main.cn_id := node_id n; Main.cn_properties := node_properties n |})
  /\ (answer = Ok [] ->
      fst (Main.create_node exn_str store node w)
      = Raise (HTTPException 500
                 (exn_str (TypeError "'NoneType' object is not subscriptable")))).
Proof.
  intros answer. subst answer.
  split; [intros n H|intros H];
    unfold Main.create_node, try_except; rewrite with_driver_session_run, H;
    reflexivity.
Qed.

(** X9.  [/neo4j/nodes]: the created node is sent back with its id written
    in decimal, its labels and its properties as stored; when the result has
    no record, the handler's own "Failed to create node" exception is caught
    by its [except] clause and answered as a 500 carrying its text. *)
Theorem router_create_node_outcomes (node_data : Neo4jRouter.NodeCreate) (w : World) :
  let answer :=
    store (queries w) (Neo4jRouter.create_node_query (Neo4jRouter.label node_data))
      [("props", PProps (Neo4jRouter.properties node_data))] in
  (forall n : Node,
      answer = Ok [ [("n", RNode n)] ] ->
      fst (Neo4jRouter.create_node exn_str store node_data w)
      = Ok {| Neo4jRouter.cn_id := str_int (node_id n);
              Neo4jRouter.cn_labels := node_labels n;
              Neo4jRouter.cn_properties := node_properties n |})
  /\ (answer = Ok [] ->
      fst (Neo4jRouter.create_node exn_str store node_data w)
      = Raise (HTTPException 500
                 (exn_str (HTTPException 500 "Failed to create node")))).
Proof.
  intros answer. subst answer.
  split; [intros n H|intros H];
    unfold Neo4jRouter.create_node, try_except; rewrite session_run_once, H;
    reflexivity.
Qed.

(** X10.  [test_connection] sends back whatever the first record holds
    under ["message"] and ignores the rest of the result; an empty result
    ([result[0]] raises [IndexError]) and a first record without that key
    ([KeyError]) are answered 500. *)
Theorem test_connection_reads_the_first_record (w : World) :
  let answer := store (queries w) Neo4jRouter.test_connection_query [] in
  (forall (row : Record_) (rest : list Record_) (v : rvalue),
      answer = Ok (row :: rest) ->
      record_getitem row "message" = Ok v ->
      fst (Neo4jRouter.test_connection exn_str store w)
      = Ok {| Neo4jRouter.status := "success"; Neo4jRouter.message := v |})
  /\ (answer = Ok [] ->
      fst (Neo4jRouter.test_connection exn_str store w)
      = Raise (HTTPException 500
                 ("Neo4j connection failed: " +:+ exn_str IndexError)))
  /\ (forall (row : Record_) (rest : list Record_),
      answer = Ok (row :: rest) ->
      ~ In "message" (map fst row) ->
      fst (Neo4jRouter.test_connection exn_str store w)
      = Raise (HTTPException 500
                 ("Neo4j connection failed: " +:+ exn_str (KeyError "message")))).
Proof.
  intros answer. subst answer.
  unfold Neo4jRouter.test_connection, try_except, bind,
    Neo4jConnection.execute_query.
  rewrite session_run_once. simpl default.
  repeat split.
  - intros row rest v H Hv. rewrite H. simpl. unfold Neo4jConnection.record_data.
    rewrite Hv. reflexivity.
  - intros H. rewrite H. reflexivity.
  - intros row rest H Hnot. rewrite H. simpl. unfold Neo4jConnection.record_data.
    rewrite (record_getitem_missing _ _ Hnot). reflexivity.
Qed.

End Outcomes.




(** A store that returns the node it created, and a store that returns no
    record. *)
Lemma api_create_node_outcomes_witness :
  fst (Main.create_node ToyStore.exn_str
         (replying (Ok [ [("n", RNode ToyStore.bob)] ]))
         (Main.mkNodeCreate "Person" {[ "name" := VStr "Bob" ]}) [])
  = Ok {| Main.cn_id := 2; Main.cn_properties := {[ "name" := VStr "Bob" ]} |}
  /\ fst (Main.create_node ToyStore.exn_str (replying (Ok []))
            (Main.mkNodeCreate "Person" ∅) [])
     = Raise (HTTPException 500 "'NoneType' object is not subscriptable").
Proof.
  split.
  - pose proof (api_create_node_outcomes ToyStore.exn_str
                  (replying (Ok [ [("n", RNode ToyStore.bob)] ]))
                  (Main.mkNodeCreate "Person" {[ "name" := VStr "Bob" ]}) []) as H.
    cbv zeta in H. destruct H as [Hcreated _].
    apply (Hcreated ToyStore.bob). reflexivity.
  - pose proof (api_create_node_outcomes ToyStore.exn_str (replying (Ok []))
                  (Main.mkNodeCreate "Person" ∅) []) as H.
    cbv zeta in H. destruct H as [_ Hempty].
    apply Hempty. reflexivity.
Defined.

Lemma router_create_node_outcomes_witness :
  fst (Neo4jRouter.create_node ToyStore.exn_str
         (replying (Ok [ [("n", RNode ToyStore.bob)] ]))
         (Neo4jRouter.mkNodeCreate "Person" {[ "name" := VStr "Bob" ]}) [])
  = Ok {| Neo4jRouter.cn_id := "2"; Neo4jRouter.cn_labels := ["Person"];
          Neo4jRouter.cn_properties := {[ "name" := VStr "Bob" ]} |}
  /\ fst (Neo4jRouter.create_node ToyStore.exn_str (replying (Ok []))
            (Neo4jRouter.mkNodeCreate "Person" ∅) [])
     = Raise (HTTPException 500 "500: Failed to create node").
Proof.
  split.
  - pose proof (router_create_node_outcomes ToyStore.exn_str
                  (replying (Ok [ [("n", RNode ToyStore.bob)] ]))
                  (Neo4jRouter.mkNodeCreate "Person" {[ "name" := VStr "Bob" ]}) [])
      as H.
    cbv zeta in H. destruct H as [Hcreated _].
    apply (Hcreated ToyStore.bob). reflexivity.
  - pose proof (router_create_node_outcomes ToyStore.exn_str (replying (Ok []))
                  (Neo4jRouter.mkNodeCreate "Person" ∅) []) as H.
    cbv zeta in H. destruct H as [_ Hempty].
    apply Hempty. reflexivity.
Defined.

(** A result whose first record holds another message, an empty result,
    and a record without the key. *)
Lemma test_connection_reads_the_first_record_witness :
  fst (Neo4jRouter.test_connection ToyStore.exn_str
         (replying (Ok [ [("message", RStr "pong")]; [("message", RStr "Connected!")] ])) [])
  = Ok {| Neo4jRouter.status := "success"; Neo4jRouter.message := RStr "pong" |}
  /\ fst (Neo4jRouter.test_connection ToyStore.exn_str (replying (Ok [])) [])
     = Raise (HTTPException 500 "Neo4j connection failed: list index out of range")
  /\ fst (Neo4jRouter.test_connection ToyStore.exn_str
            (replying (Ok [ [("greeting", RStr "Connected!")] ])) [])
     = Raise (HTTPException 500 "Neo4j connection failed: 'message'").
Proof.
  split; [|split].
  - pose proof (test_connection_reads_the_first_record ToyStore.exn_str
                  (replying (Ok [ [("message", RStr "pong")];
                                  [("message", RStr "Connected!")] ])) []) as H.
    cbv zeta in H. destruct H as (Hfirst & _ & _).
    apply (Hfirst [("message", RStr "pong")] [ [("message", RStr "Connected!")] ]);
      reflexivity.
  - pose proof (test_connection_reads_the_first_record ToyStore.exn_str
                  (replying (Ok [])) []) as H.
    cbv zeta in H. destruct H as (_ & Hempty & _).
    apply Hempty. reflexivity.
  - pose proof (test_connection_reads_the_first_record ToyStore.exn_str
                  (replying (Ok [ [("greeting", RStr "Connected!")] ])) []) as H.
    cbv zeta in H. destruct H as (_ & _ & Hkey).
    apply (Hkey [("greeting", RStr "Connected!")] []); [reflexivity|].
    simpl. intros [Heq|[]]. discriminate Heq.
Defined.

(** ** More on the graph slice *)

Section GraphSliceMore.

Variable isoformat : DateTime -> string.
Variable exn_str : exn -> string.

(** The loop works on the nodes and on the relationships of the rows
    independently. *)
Lemma fold_step_row (rows : list Row) (acc : list (Z * NodeJson) * list RelJson) :
  fold_left (fun a row => step_row isoformat row a) rows acc
  = (fold_left (fun d x => add_node isoformat x d) (row_nodes rows) (fst acc),
     fold_left (fun l r => add_relationship isoformat r l)
       (row_relationships rows) (snd acc)).
Proof.
  revert acc. induction rows as [|row rows IH]; intros [d l]; [reflexivity|].
  simpl fold_left at 1. rewrite IH.
  destruct row as [n r m]. unfold row_nodes, row_relationships, step_row.
  destruct m as [m|], r as [r|]; reflexivity.
Qed.

Lemma fold_add_relationship (rs : list Relationship) (l : list RelJson) :
  fold_left (fun l r => add_relationship isoformat r l) rs l
  = l ++ map (json_of_relationship isoformat)
           (List.filter (fun r => truthy (RRel r)) rs).
Proof.
  revert l. induction rs as [|r rs IH]; intros l.
  - simpl. rewrite app_nil_r. reflexivity.
  - cbn [fold_left List.filter]. rewrite IH. unfold add_relationship.
    destruct (truthy (RRel r)); [rewrite <- app_assoc|]; reflexivity.
Qed.

Lemma add_node_keys_iff (x : Node) (d : list (Z * NodeJson)) (k : Z) :
  In k (map fst (add_node isoformat x d))
  <-> In k (map fst d) \/ (truthy (RNode x) = true /\ node_id x = k).
Proof.
  unfold add_node.
  destruct (truthy (RNode x)) eqn:Ht; simpl.
  - destruct (dict_contains (node_id x) d) eqn:Hc; simpl.
    + split; [auto|]. intros [H|[_ <-]]; [exact H|].
      apply dict_contains_In. exact Hc.
    + rewrite map_app, in_app_iff. simpl. split.
      * intros [H|[H|[]]]; auto.
      * intros [H|[_ H]]; auto.
  - split; [auto|]. intros [H|[H _]]; [exact H|discriminate H].
Qed.

Lemma fold_add_node_keys_iff (xs : list Node) (d : list (Z * NodeJson)) (k : Z) :
  In k (map fst (fold_left (fun d x => add_node isoformat x d) xs d))
  <-> In k (map fst d)
      \/ exists x, In x xs /\ truthy (RNode x) = true /\ node_id x = k.
Proof.
  revert d. induction xs as [|x xs IH]; intros d; simpl.
  - split; [auto|]. intros [H|(x & [] & _)]. exact H.
  - rewrite IH, add_node_keys_iff. split.
    + intros [[H|[Ht Hk]]|(y & Hy & Ht & Hk)]; eauto 6.
    + intros [H|(y & [<-|Hy] & Ht & Hk)]; eauto 6.
Qed.

Lemma fold_add_node_ids (xs : list Node) (d : list (Z * NodeJson)) :
  map nj_id (dict_values d) = map fst d ->
  map nj_id (dict_values (fold_left (fun d x => add_node isoformat x d) xs d))
  = map fst (fold_left (fun d x => add_node isoformat x d) xs d).
Proof.
  revert d. induction xs as [|x xs IH]; intros d H; [exact H|].
  simpl. apply IH. apply add_node_ids. exact H.
Qed.

(** Entries are only ever appended. *)
Lemma add_node_extends (x : Node) (d : list (Z * NodeJson)) :
  exists more, add_node isoformat x d = d ++ more.
Proof.
  unfold add_node.
  destruct (truthy (RNode x) && negb (dict_contains (node_id x) d)).
  - eexists. reflexivity.
  - exists []. rewrite app_nil_r. reflexivity.
Qed.

Lemma fold_add_node_extends (xs : list Node) (d : list (Z * NodeJson)) :
  exists more, fold_left (fun d x => add_node isoformat x d) xs d = d ++ more.
Proof.
  revert d. induction xs as [|x xs IH]; intros d; simpl.
  - exists []. rewrite app_nil_r. reflexivity.
  - destruct (add_node_extends x d) as [m1 H1].
    destruct (IH (add_node isoformat x d)) as [m2 H2].
    exists (m1 ++ m2). rewrite H2, H1, app_assoc. reflexivity.
Qed.

Lemma add_node_length (x : Node) (d : list (Z * NodeJson)) :
  (length (add_node isoformat x d) <= S (length d))%nat.
Proof.
  unfold add_node.
  destruct (truthy (RNode x) && negb (dict_contains (node_id x) d)).
  - rewrite length_app. simpl. lia.
  - lia.
Qed.

Lemma fold_add_node_length (xs : list Node) (d : list (Z * NodeJson)) :
  (length (fold_left (fun d x => add_node isoformat x d) xs d)
   <= length d + length xs)%nat.
Proof.
  revert d. induction xs as [|x xs IH]; intros d; simpl; [lia|].
  pose proof (IH (add_node isoformat x d)). pose proof (add_node_length x d). lia.
Qed.

Lemma row_nodes_length (rows : list Row) :
  (length (row_nodes rows) <= 2 * length rows)%nat.
Proof.
  induction rows as [|row rows IH]; simpl; [lia|].
  rewrite length_app. destruct (row_m row); simpl; lia.
Qed.

Lemma row_relationships_length (rows : list Row) :
  (length (row_relationships rows) <= length rows)%nat.
Proof.
  induction rows as [|row rows IH]; simpl; [lia|].
  rewrite length_app. destruct (row_r row); simpl; lia.
Qed.

Lemma nodup_ids_injective (l : list NodeJson) (a b : NodeJson) :
  NoDup (map nj_id l) -> In a l -> In b l -> nj_id a = nj_id b -> a = b.
Proof.
  induction l as [|c l IH]; intros Hnd Ha Hb Hab; [destruct Ha|].
  simpl in Hnd. apply NoDup_cons in Hnd. destruct Hnd as [Hc Hnd].
  destruct Ha as [->|Ha], Hb as [->|Hb]; auto.
  - exfalso. apply Hc. apply list_elem_of_In. rewrite Hab.
    apply in_map. exact Hb.
  - exfalso. apply Hc. apply list_elem_of_In. rewrite <- Hab.
    apply in_map. exact Ha.
Qed.

(** The slice of a result of the graph statement, in closed form. *)
Lemma graph_of_rows (rows : list Row) :
  Neo4jConnection.graph_of_records isoformat (map record_of_row rows)
  = Ok {| g_nodes :=
            dict_values (fold_left (fun d x => add_node isoformat x d) (row_nodes rows) []);
          g_relationships :=
            map (json_of_relationship isoformat)
              (List.filter (fun r => truthy (RRel r)) (row_relationships rows)) |}.
Proof.
  rewrite graph_of_records_rows, fold_step_row, fold_add_relationship.
  reflexivity.
Qed.

(** X11.  On every result of the graph statement [get_graph]'s loop
    returns a slice, and the relationship list of the slice is, in the
    order of the records and without any deduplication, the relationships
    that have at least one property; a relationship without properties is
    left out. *)
Theorem graph_relationships_in_record_order (rows : list Row) :
  exists g : GraphJson,
    Neo4jConnection.graph_of_records isoformat (map record_of_row rows) = Ok g
    /\ g_relationships g
       = map (json_of_relationship isoformat)
           (List.filter (fun r => negb (Nat.eqb (size (rel_properties r)) 0))
              (row_relationships rows)).
Proof.
  eexists. split; [apply graph_of_rows|]. reflexivity.
Qed.

(** X12.  An id is in the node list of the slice exactly when some record
    holds, as [n] or as [m], a node with this id that has at least one
    property. *)
Theorem graph_node_ids_characterised (rows : list Row) :
  exists g : GraphJson,
    Neo4jConnection.graph_of_records isoformat (map record_of_row rows) = Ok g
    /\ forall k : Z,
        In k (map nj_id (g_nodes g))
        <-> exists x : Node,
            In x (row_nodes rows)
            /\ negb (Nat.eqb (size (node_properties x)) 0) = true
            /\ node_id x = k.
Proof.
  eexists. split; [apply graph_of_rows|]. intros k. simpl.
  rewrite (fold_add_node_ids (row_nodes rows) []) by reflexivity.
  rewrite fold_add_node_keys_iff. simpl. split.
  - intros [[]|H]. exact H.
  - auto.
Qed.

(** X13.  The first occurrence wins: of the nodes with one id, the entry
    of the slice is built from the first one, in the order the loop visits
    them, that has a property; a later node with the same id never replaces
    it. *)
Theorem graph_first_occurrence_wins (rows : list Row)
    (before after : list Node) (x : Node) :
  row_nodes rows = before ++ x :: after ->
  truthy (RNode x) = true ->
  (forall y : Node,
      In y before -> truthy (RNode y) = true -> node_id y <> node_id x) ->
  exists g : GraphJson,
    Neo4jConnection.graph_of_records isoformat (map record_of_row rows) = Ok g
    /\ In (json_of_node isoformat x) (g_nodes g)
    /\ forall nj : NodeJson,
        In nj (g_nodes g) -> nj_id nj = node_id x -> nj = json_of_node isoformat x.
Proof.
  intros Hsplit Ht Hfirst.
  eexists. split; [apply graph_of_rows|]. simpl.
  rewrite Hsplit, fold_left_app. simpl.
  set (d1 := fold_left (fun d y => add_node isoformat y d) before []).
  assert (Hfresh : dict_contains (node_id x) d1 = false).
  { destruct (dict_contains (node_id x) d1) eqn:Hc; [|reflexivity].
    apply dict_contains_In in Hc. unfold d1 in Hc.
    apply fold_add_node_keys_iff in Hc. destruct Hc as [[]|(y & Hy & Hty & Hk)].
    exfalso. exact (Hfirst y Hy Hty Hk). }
  assert (Hadd : add_node isoformat x d1 = d1 ++ [(node_id x, json_of_node isoformat x)]).
  { unfold add_node. rewrite Ht, Hfresh. reflexivity. }
  rewrite Hadd.
  destruct (fold_add_node_extends after
              (d1 ++ [(node_id x, json_of_node isoformat x)])) as [more Hmore].
  assert (Hin : In (json_of_node isoformat x)
                  (dict_values
                     (fold_left (fun d y => add_node isoformat y d) after
                        (d1 ++ [(node_id x, json_of_node isoformat x)])))).
  { rewrite Hmore. unfold dict_values. rewrite !map_app. simpl.
    apply in_or_app. left. apply in_or_app. right. left. reflexivity. }
  split; [exact Hin|].
  intros nj Hnj Hid.
  assert (Hok : nodes_ok
                  (fold_left (fun d y => add_node isoformat y d) after
                     (d1 ++ [(node_id x, json_of_node isoformat x)]))).
  { pose proof (graph_of_rows rows) as Hg.
    rewrite Hsplit, fold_left_app in Hg. simpl in Hg. fold d1 in Hg.
    rewrite Hadd in Hg.
    unfold Neo4jConnection.graph_of_records in Hg.
    destruct (Neo4jConnection.visit_records isoformat (map record_of_row rows) ([], []))
      as [acc|e] eqn:Hacc; simpl in Hg; [|discriminate].
    pose proof (visit_records_ok isoformat _ _ _ Hacc nodes_ok_empty) as Hacc_ok.
    rewrite visit_records_rows in Hacc. injection Hacc as <-.
    rewrite fold_step_row in Hacc_ok. simpl in Hacc_ok.
    rewrite Hsplit, fold_left_app in Hacc_ok. simpl in Hacc_ok. fold d1 in Hacc_ok.
    rewrite Hadd in Hacc_ok. exact Hacc_ok. }
  destruct Hok as [Hnd Hids]. rewrite <- Hids in Hnd.
  apply (nodup_ids_injective _ _ _ Hnd Hnj Hin). exact Hid.
Qed.

End GraphSliceMore.

(** The second row of [ToyRows.twice] holds another node with the id 2; the
    entry of the slice for the id 2 is the one of the first row. *)
Lemma graph_first_occurrence_wins_witness :
  exists g : GraphJson,
    Neo4jConnection.graph_of_records ToyStore.isoformat
      (map record_of_row ToyRows.twice) = Ok g
    /\ In (json_of_node ToyStore.isoformat ToyStore.bob) (g_nodes g)
    /\ forall nj : NodeJson,
        In nj (g_nodes g) -> nj_id nj = 2 ->
        nj = json_of_node ToyStore.isoformat ToyStore.bob.
Proof.
  apply (graph_first_occurrence_wins ToyStore.isoformat ToyRows.twice
           [ToyStore.ann] [ToyStore.cat; ToyRows.robert] ToyStore.bob).
  - reflexivity.
  - reflexivity.
  - intros y [<-|[]] _. discriminate.
Defined.

Section GraphSliceBounds.

Variable isoformat : DateTime -> string.
Variable exn_str : exn -> string.
Variable store : list (string * Params) -> string -> Params -> result (list Record_).

(** X14.  More records only append: the slice of a result is, list by
    list, an initial part of the slice of the result continued by further
    records. *)
Theorem graph_slice_only_grows (rows1 rows2 : list Row) :
  exists (g1 g12 : GraphJson) (more_nodes : list NodeJson) (more_rels : list RelJson),
    Neo4jConnection.graph_of_records isoformat (map record_of_row rows1) = Ok g1
    /\ Neo4jConnection.graph_of_records isoformat (map record_of_row (rows1 ++ rows2))
       = Ok g12
    /\ g_nodes g12 = g_nodes g1 ++ more_nodes
    /\ g_relationships g12 = g_relationships g1 ++ more_rels.
Proof.
  destruct (fold_add_node_extends isoformat (row_nodes rows2)
              (fold_left (fun d x => add_node isoformat x d) (row_nodes rows1) []))
    as [more Hmore].
  do 2 eexists. exists (dict_values more). eexists.
  split; [apply graph_of_rows|]. split; [apply graph_of_rows|]. simpl.
  unfold row_nodes, row_relationships.
  rewrite !flat_map_app, fold_left_app.
  fold (row_nodes rows1). fold (row_nodes rows2). rewrite Hmore.
  split.
  - unfold dict_values. apply map_app.
  - rewrite List.filter_app, map_app. reflexivity.
Qed.

(** X15.  A slice has at most one relationship entry and at most two node
    entries per record of the result. *)
Theorem graph_slice_sizes (rows : list Row) :
  exists g : GraphJson,
    Neo4jConnection.graph_of_records isoformat (map record_of_row rows) = Ok g
    /\ (length (g_relationships g) <= length rows)%nat
    /\ (length (g_nodes g) <= 2 * length rows)%nat.
Proof.
  eexists. split; [apply graph_of_rows|]. cbn [g_relationships g_nodes]. split.
  - rewrite length_map.
    pose proof (List.filter_length_le (fun r => truthy (RRel r)) (row_relationships rows)).
    pose proof (row_relationships_length rows). lia.
  - unfold dict_values. rewrite length_map.
    pose proof (fold_add_node_length isoformat (row_nodes rows) []) as Hlen.
    pose proof (row_nodes_length rows). cbn [length] in Hlen. lia.
Qed.


(** X17.  A record without the key ["n"] makes the loop raise [KeyError]:
    [get_graph] raises it, nothing of the slice built so far is returned,
    and [/neo4j/graph] answers 500. *)
Theorem graph_record_without_n_fails
    (limit : Z) (rows : list Row) (bad : Record_) (rest : list Record_) (w : World) :
  store (queries w) Neo4jConnection.get_graph_query [("limit", PInt limit)]
  = Ok (map record_of_row rows ++ bad :: rest) ->
  ~ In "n" (map fst bad) ->
  fst (Neo4jConnection.get_graph isoformat store limit w) = Raise (KeyError "n")
  /\ fst (Neo4jRouter.get_graph isoformat exn_str store limit w)
     = Raise (HTTPException 500 ("Neo4j error: " +:+ exn_str (KeyError "n"))).
Proof.
  intros H Hbad.
  assert (Hloop : forall acc,
             Neo4jConnection.visit_records isoformat
               (map record_of_row rows ++ bad :: rest) acc
             = Raise (KeyError "n")).
  { clear H. induction rows as [|row rows IH]; intros acc.
    - simpl. unfold Neo4jConnection.visit_record, Neo4jConnection.visit_node.
      rewrite (record_getitem_missing _ _ Hbad). reflexivity.
    - simpl. rewrite visit_record_row. simpl. apply IH. }
  assert (Hc : fst (Neo4jConnection.get_graph isoformat store limit w)
               = Raise (KeyError "n")).
  { unfold Neo4jConnection.get_graph. rewrite session_run_once, H. simpl.
    unfold Neo4jConnection.graph_of_records. rewrite Hloop. reflexivity. }
  split; [exact Hc|].
  apply (try_except_raises _ (fun e' => "Neo4j error: " +:+ exn_str e')).
  exact Hc.
Qed.

End GraphSliceBounds.


(** A result whose second record has no field ["n"]. *)
Lemma graph_record_without_n_fails_witness :
  fst (Neo4jRouter.get_graph ToyStore.isoformat ToyStore.exn_str
         (replying (Ok (map record_of_row [mkRow ToyStore.bob None None]
                        ++ [("x", RNode ToyStore.ann)] :: []))) 100 [])
  = Raise (HTTPException 500 "Neo4j error: 'n'").
Proof.
  apply (graph_record_without_n_fails ToyStore.isoformat ToyStore.exn_str
           (replying (Ok (map record_of_row [mkRow ToyStore.bob None None]
                          ++ [("x", RNode ToyStore.ann)] :: [])))
           100 [mkRow ToyStore.bob None None] [("x", RNode ToyStore.ann)] [] []).
  - reflexivity.
  - simpl. intros [H|[]]. discriminate H.
Defined.

(** ** More on the property converter *)

Section ConverterMore.

Variable isoformat : DateTime -> string.

(** X18.  After [convert_properties] no value of the mapping is a
    [DateTime], and the mapping has as many entries as before; a mapping
    that holds no [DateTime] as a value is returned unchanged, whatever
    else its values are (a [DateTime] inside a list is not looked at). *)
Theorem converted_properties_hold_no_datetime (props : gmap string value) :
  (forall (k : string) (v : value),
      convert_properties isoformat props !! k = Some v -> is_DateTime v = false)
  /\ size (convert_properties isoformat props) = size props
  /\ ((forall (k : string) (v : value), props !! k = Some v -> is_DateTime v = false) ->
      convert_properties isoformat props = props).
Proof.
  split; [|split].
  - intros k v. rewrite convert_properties_lookup.
    destruct (props !! k) as [v0|]; simpl; [|discriminate].
    intros [= <-]. destruct v0; reflexivity.
  - unfold convert_properties. apply map_size_fmap.
  - intros H. apply map_eq. intros k. rewrite convert_properties_lookup.
    destruct (props !! k) as [v0|] eqn:Hk; simpl; [|reflexivity].
    specialize (H k v0 Hk). destruct v0; try reflexivity. discriminate H.
Qed.

End ConverterMore.

(** A mapping whose one value is a list that holds a [DateTime]: it is
    returned as it is. *)
Lemma converted_properties_hold_no_datetime_witness :
  convert_properties ToyStore.isoformat
    {[ "seen" := VList [VDateTime (mkDateTime 2024 1 2 3 4 5 0 None)] ]}
  = {[ "seen" := VList [VDateTime (mkDateTime 2024 1 2 3 4 5 0 None)] ]}.
Proof.
  apply (converted_properties_hold_no_datetime ToyStore.isoformat).
  intros k v Hkv.
  destruct (decide (k = "seen")) as [->|Hne].
  - rewrite lookup_singleton_eq in Hkv. injection Hkv as <-. reflexivity.
  - rewrite lookup_singleton_ne in Hkv by congruence. discriminate Hkv.
Defined.

(** ** The user endpoints *)

Section Users.

Variable isoformat : DateTime -> string.
Variable exn_str : exn -> string.
Variable store : list (string * Params) -> string -> Params -> result (list Record_).
Variable nodes_properties : Relationship -> gmap string value * gmap string value.

Lemma users_of_user_records (users : list Node) (acc : list Neo4jRouter.UserJson) :
  Neo4jRouter.users_of_records isoformat (map record_of_user users) acc
  = Ok (acc ++ map (json_of_user isoformat) users).
Proof.
  revert acc. induction users as [|u users IH]; intros acc; simpl.
  - rewrite app_nil_r. reflexivity.
  - rewrite IH, <- app_assoc. reflexivity.
Qed.

(** X19.  [get_users] lists one entry per record of the result, in the
    order of the records, with the id and the converted properties of the
    user: users are not deduplicated, and a user without any property is
    listed like every other. *)
Theorem get_users_lists_every_record (users : list Node) (w : World) :
  store (queries w) Neo4jRouter.get_users_query [] = Ok (map record_of_user users) ->
  fst (Neo4jRouter.get_users isoformat exn_str store w)
  = Ok (map (json_of_user isoformat) users)
  /\ length (map (json_of_user isoformat) users) = length users.
Proof.
  intros H. split; [|apply length_map].
  unfold Neo4jRouter.get_users, try_except.
  rewrite session_run_once, H. simpl rbind.
  rewrite users_of_user_records. reflexivity.
Qed.

(** X20.  A record without the key ["u"] makes [get_users] answer 500;
    the entries built from the records before it are not returned. *)
Theorem get_users_record_without_u_fails
    (users : list Node) (bad : Record_) (rest : list Record_) (w : World) :
  store (queries w) Neo4jRouter.get_users_query []
  = Ok (map record_of_user users ++ bad :: rest) ->
  ~ In "u" (map fst bad) ->
  fst (Neo4jRouter.get_users isoformat exn_str store w)
  = Raise (HTTPException 500 ("Neo4j error: " +:+ exn_str (KeyError "u"))).
Proof.
  intros H Hbad.
  assert (Hloop : forall acc,
             Neo4jRouter.users_of_records isoformat
               (map record_of_user users ++ bad :: rest) acc
             = Raise (KeyError "u")).
  { clear H. induction users as [|u users IH]; intros acc; simpl.
    - rewrite (record_getitem_missing _ _ Hbad). reflexivity.
    - apply IH. }
  unfold Neo4jRouter.get_users, try_except.
  rewrite session_run_once, H. simpl rbind. rewrite Hloop. reflexivity.
Qed.

(** X21.  [get_user_node] sends back the user the store returns, with
    its id and its properties as stored; when the store returns no record
    its [HTTPException] leaves the handler, no [except] clause being in
    the way, and the answer is a 404. *)
Theorem get_user_node_outcomes (email : string) (w : World) :
  let answer :=
    store (queries w) Main.get_user_node_query [("email", PStr email)] in
  (forall u : Node,
      answer = Ok [ record_of_user u ] ->
      fst (Main.get_user_node store email w) = Ok (item_of_node u))
  /\ (answer = Ok [] ->
      fst (Main.get_user_node store email w)
      = Raise (HTTPException 404 "User not found")
      /\ http_status (fst (Main.get_user_node store email w)) = 404).
Proof.
  intros answer. subst answer. split.
  - intros u H. unfold Main.get_user_node.
    rewrite with_driver_session_run, H. reflexivity.
  - intros H. unfold Main.get_user_node.
    rewrite with_driver_session_run, H. split; reflexivity.
Qed.

Lemma items_of_item_records (key has_type : string) (rows : list ItemRow)
    (acc : list Main.ItemJson * list Main.LinkJson) :
  String.eqb key "r1" = false ->
  String.eqb key "r2" = false ->
  Main.items_of_records nodes_properties key has_type
    (map (record_of_item_row key) rows) acc
  = Ok (fst acc ++ map (fun row => item_of_node (ir_item row)) rows,
        snd acc ++ flat_map (links_of_row nodes_properties has_type) rows).
Proof.
  intros H1 H2. revert acc.
  induction rows as [|row rows IH]; intros [items links].
  - simpl. rewrite !app_nil_r. reflexivity.
  - cbn [map Main.items_of_records]. unfold record_of_item_row at 1 2 3.
    cbn [record_getitem]. rewrite String.eqb_refl, H1, H2. simpl rbind.
    rewrite IH. cbn [fst snd flat_map]. rewrite <- !app_assoc. reflexivity.
Qed.

(** X22.  [get_user_smart_goals] and [get_user_metrics] list one item and
    two relationship entries per record, in the order of the records: the
    item with its properties as stored, then the entry of [r1] under the
    handler's own type ("HAS_GOAL" or "HAS_METRIC") and the entry of [r2]
    under "BELONGS_TO_USER", whatever the types of the relationships
    themselves; the relationship list is twice as long as the item list. *)
Theorem user_items_listed_per_record (user_email : string) (rows : list ItemRow)
    (w : World) :
  (store (queries w) Main.get_user_smart_goals_query [("email", PStr user_email)]
   = Ok (map (record_of_item_row "g") rows) ->
   fst (Main.get_user_smart_goals exn_str store nodes_properties user_email w)
   = Ok {| Main.ui_items := map (fun row => item_of_node (ir_item row)) rows;
           Main.ui_relationships :=
             flat_map (links_of_row nodes_properties "HAS_GOAL") rows |})
  /\ (store (queries w) Main.get_user_metrics_query [("email", PStr user_email)]
      = Ok (map (record_of_item_row "m") rows) ->
      fst (Main.get_user_metrics exn_str store nodes_properties user_email w)
      = Ok {| Main.ui_items := map (fun row => item_of_node (ir_item row)) rows;
              Main.ui_relationships :=
                flat_map (links_of_row nodes_properties "HAS_METRIC") rows |})
  /\ (forall has_type : string,
      length (flat_map (links_of_row nodes_properties has_type) rows)
      = (2 * length (map (fun row => item_of_node (ir_item row)) rows))%nat).
Proof.
  split; [|split].
  - intros H. unfold Main.get_user_smart_goals, try_except. cbv zeta.
    rewrite with_driver_session_run, H. simpl rbind.
    rewrite items_of_item_records by reflexivity. reflexivity.
  - intros H. unfold Main.get_user_metrics, try_except. cbv zeta.
    rewrite with_driver_session_run, H. simpl rbind.
    rewrite items_of_item_records by reflexivity. reflexivity.
  - intros has_type. rewrite length_map.
    induction rows as [|row rows IH]; [reflexivity|].
    cbn [flat_map length app links_of_row]. rewrite IH. lia.
Qed.

End Users.

(** Two users, one of them without properties, are both listed. *)
Lemma get_users_lists_every_record_witness :
  fst (Neo4jRouter.get_users ToyStore.isoformat ToyStore.exn_str
         (replying (Ok (map record_of_user [ToyRows.alice; ToyRows.ghost]))) [])
  = Ok [ json_of_user ToyStore.isoformat ToyRows.alice;
         json_of_user ToyStore.isoformat ToyRows.ghost ].
Proof.
  apply (get_users_lists_every_record ToyStore.isoformat ToyStore.exn_str
           (replying (Ok (map record_of_user [ToyRows.alice; ToyRows.ghost])))
           [ToyRows.alice; ToyRows.ghost] []).
  reflexivity.
Defined.

Lemma get_users_record_without_u_fails_witness :
  fst (Neo4jRouter.get_users ToyStore.isoformat ToyStore.exn_str
         (replying (Ok (map record_of_user [ToyRows.alice]
                        ++ [("n", RNode ToyRows.ghost)] :: []))) [])
  = Raise (HTTPException 500 "Neo4j error: 'u'").
Proof.
  apply (get_users_record_without_u_fails ToyStore.isoformat ToyStore.exn_str
           (replying (Ok (map record_of_user [ToyRows.alice]
                          ++ [("n", RNode ToyRows.ghost)] :: [])))
           [ToyRows.alice] [("n", RNode ToyRows.ghost)] [] []).
  - reflexivity.
  - simpl. intros [H|[]]. discriminate H.
Defined.

(** A known user and an unknown one. *)
Lemma get_user_node_outcomes_witness :
  fst (Main.get_user_node (replying (Ok [ record_of_user ToyRows.alice ]))
         "alice@example.com" [])
  = Ok (item_of_node ToyRows.alice)
  /\ http_status
       (fst (Main.get_user_node (replying (Ok [])) "nobody@example.com" [])) = 404.
Proof.
  split.
  - pose proof (get_user_node_outcomes
                  (replying (Ok [ record_of_user ToyRows.alice ]))
                  "alice@example.com" []) as H.
    cbv zeta in H. destruct H as [Hfound _].
    apply (Hfound ToyRows.alice). reflexivity.
  - pose proof (get_user_node_outcomes (replying (Ok []))
                  "nobody@example.com" []) as H.
    cbv zeta in H. destruct H as [_ Hmissing].
    apply Hmissing. reflexivity.
Defined.

(** One goal of one user: one item, two relationship entries. *)
Lemma user_items_listed_per_record_witness :
  fst (Main.get_user_smart_goals ToyStore.exn_str
         (replying (Ok (map (record_of_item_row "g") [ToyRows.goal_row])))
         ToyRows.nodes_properties "alice@example.com" [])
  = Ok {| Main.ui_items := [ item_of_node ToyRows.goal ];
          Main.ui_relationships :=
            [ link_of_relationship ToyRows.nodes_properties "HAS_GOAL" ToyRows.has_goal;
              link_of_relationship ToyRows.nodes_properties "BELONGS_TO_USER"
                ToyRows.belongs ] |}
  /\ fst (Main.get_user_metrics ToyStore.exn_str
            (replying (Ok (map (record_of_item_row "m") [ToyRows.goal_row])))
            ToyRows.nodes_properties "alice@example.com" [])
     = Ok {| Main.ui_items := [ item_of_node ToyRows.goal ];
             Main.ui_relationships :=
               [ link_of_relationship ToyRows.nodes_properties "HAS_METRIC" ToyRows.has_goal;
                 link_of_relationship ToyRows.nodes_properties "BELONGS_TO_USER"
                   ToyRows.belongs ] |}.
Proof.
  split.
  - apply (user_items_listed_per_record ToyStore.exn_str
             (replying (Ok (map (record_of_item_row "g") [ToyRows.goal_row])))
             ToyRows.nodes_properties "alice@example.com" [ToyRows.goal_row] []).
    reflexivity.
  - apply (user_items_listed_per_record ToyStore.exn_str
             (replying (Ok (map (record_of_item_row "m") [ToyRows.goal_row])))
             ToyRows.nodes_properties "alice@example.com" [ToyRows.goal_row] []).
    reflexivity.
Defined.

(** ** The video upload *)

Section UploadFacts.

Variable os_str : UploadVideo.os_exn -> string.

(** X23.  [upload_video] answers with the status "success" exactly when
    creating the temporary file, copying the upload into it, the encoder
    run and the removal of the temporary file all succeed.  The file name
    it returns is then [webcam_recording_<timestamp>.mp4], the encoder was
    run once, reading the temporary file and writing that name inside
    [OUTPUT_DIR], and the temporary file was removed afterwards. *)
Theorem upload_succeeds_exactly_when_every_step_does
    (sys : UploadVideo.System) (filename : string) (events : list UploadVideo.fs_event) :
  UploadVideo.upload_video os_str sys = (UploadVideo.Success filename, events)
  <-> exists temp : string,
      UploadVideo.new_temp sys = UploadVideo.OsOk temp
      /\ UploadVideo.copy sys temp = UploadVideo.OsOk tt
      /\ filename = "webcam_recording_" +:+ UploadVideo.now sys +:+ ".mp4"
      /\ UploadVideo.run sys
           (UploadVideo.ffmpeg_argv temp
              (UploadVideo.path_join UploadVideo.OUTPUT_DIR filename))
         = UploadVideo.OsOk tt
      /\ UploadVideo.unlink sys temp = UploadVideo.OsOk tt
      /\ events
         = [ UploadVideo.TempCreated temp; UploadVideo.Copied temp;
             UploadVideo.Ran
               (UploadVideo.ffmpeg_argv temp
                  (UploadVideo.path_join UploadVideo.OUTPUT_DIR filename));
             UploadVideo.Unlinked temp ].
Proof.
  unfold UploadVideo.upload_video, UploadVideo.store_and_convert,
    UploadVideo.convert.
  split.
  - destruct (UploadVideo.new_temp sys) as [temp|e0] eqn:Htemp; [|discriminate].
    destruct (UploadVideo.copy sys temp) as [[]|e1] eqn:Hcopy; [|discriminate].
    destruct (UploadVideo.run sys _) as [[]|[m|m]] eqn:Hrun; try discriminate.
    destruct (UploadVideo.unlink sys temp) as [[]|[m|m]] eqn:Hunlink;
      try discriminate.
    intros [= <- <-]. exists temp. repeat split; assumption.
  - intros (temp & Htemp & Hcopy & -> & Hrun & Hunlink & ->).
    rewrite Htemp, Hcopy, Hrun, Hunlink. reflexivity.
Qed.


(** X25.  An encoder run that ends with a non-zero status is reported as
    "FFmpeg conversion failed: ..."; a failure of the removal of the
    temporary file after a successful conversion is reported as a failure
    too, with the bare text of the exception, although the encoder has
    written its output. *)
Theorem upload_failure_messages (sys : UploadVideo.System) (temp : string) :
  let argv :=
    UploadVideo.ffmpeg_argv temp
      (UploadVideo.path_join UploadVideo.OUTPUT_DIR
         ("webcam_recording_" +:+ UploadVideo.now sys +:+ ".mp4")) in
  UploadVideo.new_temp sys = UploadVideo.OsOk temp ->
  UploadVideo.copy sys temp = UploadVideo.OsOk tt ->
  (forall msg : string,
      UploadVideo.run sys argv
      = UploadVideo.OsRaise (UploadVideo.CalledProcessError msg) ->
      UploadVideo.upload_video os_str sys
      = (UploadVideo.Failed
           ("FFmpeg conversion failed: "
            +:+ os_str (UploadVideo.CalledProcessError msg)),
         [ UploadVideo.TempCreated temp; UploadVideo.Copied temp;
           UploadVideo.Ran argv ]))
  /\ (forall msg : string,
      UploadVideo.run sys argv = UploadVideo.OsOk tt ->
      UploadVideo.unlink sys temp
      = UploadVideo.OsRaise (UploadVideo.OtherError msg) ->
      UploadVideo.upload_video os_str sys
      = (UploadVideo.Failed (os_str (UploadVideo.OtherError msg)),
         [ UploadVideo.TempCreated temp; UploadVideo.Copied temp;
           UploadVideo.Ran argv ])).
Proof.
  intros argv Htemp Hcopy. subst argv.
  unfold UploadVideo.upload_video, UploadVideo.store_and_convert,
    UploadVideo.convert.
  rewrite Htemp, Hcopy. split.
  - intros msg Hrun. rewrite Hrun. reflexivity.
  - intros msg Hrun Hunlink. rewrite Hrun, Hunlink. reflexivity.
Qed.

End UploadFacts.

(** A request whose every step succeeds. *)
Lemma upload_succeeds_exactly_when_every_step_does_witness :
  UploadVideo.upload_video ToyRows.os_str ToyRows.all_succeed
  = (UploadVideo.Success "webcam_recording_20240102_030405.mp4",
     [ UploadVideo.TempCreated "/tmp/tmp1.webm"; UploadVideo.Copied "/tmp/tmp1.webm";
       UploadVideo.Ran
         (UploadVideo.ffmpeg_argv "/tmp/tmp1.webm"
            "data/webcam_video_output/webcam_recording_20240102_030405.mp4");
       UploadVideo.Unlinked "/tmp/tmp1.webm" ]).
Proof.
  apply (upload_succeeds_exactly_when_every_step_does ToyRows.os_str
           ToyRows.all_succeed).
  exists "/tmp/tmp1.webm". repeat split.
Defined.


(** The two failures, each on its own request. *)
Lemma upload_failure_messages_witness :
  fst (UploadVideo.upload_video ToyRows.os_str ToyRows.encoder_fails)
  = UploadVideo.Failed "FFmpeg conversion failed: exit status 1"
  /\ fst (UploadVideo.upload_video ToyRows.os_str ToyRows.unlink_fails)
     = UploadVideo.Failed "Permission denied".
Proof.
  split.
  - pose proof (upload_failure_messages ToyRows.os_str ToyRows.encoder_fails
                  "/tmp/tmp1.webm") as H.
    cbv zeta in H. destruct H as [Hrun _]; [reflexivity|reflexivity|].
    rewrite (Hrun "exit status 1"); reflexivity.
  - pose proof (upload_failure_messages ToyRows.os_str ToyRows.unlink_fails
                  "/tmp/tmp1.webm") as H.
    cbv zeta in H. destruct H as [_ Hunlink]; [reflexivity|reflexivity|].
    rewrite (Hunlink "Permission denied"); reflexivity.
Defined.

(** The id 2 is listed for [ToyRows.friends]: node 2 is the [m] of the
    first row and has a property. *)
Lemma graph_node_ids_characterised_witness :
  exists g : GraphJson,
    Neo4jConnection.graph_of_records ToyStore.isoformat
      (map record_of_row ToyRows.friends) = Ok g
    /\ In 2 (map nj_id (g_nodes g)).
Proof.
  destruct (graph_node_ids_characterised ToyStore.isoformat ToyRows.friends)
    as (g & Hg & Hids).
  exists g. split; [exact Hg|].
  apply Hids. exists ToyStore.bob. repeat split.
  simpl. auto.
Defined.
